(** * docling-reader: the orchestration layer around the Docling engine

    A shallow embedding of [config.py], [advanced_processor.py]
    ([AdvancedDoclingProcessor]) and [pdf_processor.py]
    ([DoclingPDFProcessor]), and the properties of the specification that
    concern them.

    The Docling engine, the file system, the clock and the logging sink
    are the outside world of the program.  They appear as a record of
    oracles ([World], [Env]); every call the program makes to them is
    recorded in a trace of events, in program order.  Python exceptions
    are the [Raise] outcome of a computation.

    A [string] stands for a Python [str] whose code points are below 256,
    one character per code point. *)

From stdpp Require Import gmap strings list fin_maps.
From Stdlib Require Import Ascii QArith.
Close Scope Q_scope.

(** ** Python values *)

(** A Python [str] holding document text is a sequence of code points. *)
Definition text : Type := list N.

Definition text_of_string (s : string) : text :=
  (λ a, N_of_ascii a) <$> String.list_ascii_of_string s.

(** The values that occur in the configuration dictionaries of
    [config.py]: booleans, integers, floats (by their exact value),
    strings and lists of strings. *)
Inductive pyval : Type :=
| PBool (b : bool)
| PInt (z : Z)
| PFloat (q : Q)
| PStr (s : string)
| PStrList (l : list string).

#[global] Instance pyval_inhabited : Inhabited pyval := populate (PBool false).

(** Truth value of an object, as [if x:] and [any] test it. *)
Definition truthy (v : pyval) : bool :=
  match v with
  | PBool b => b
  | PInt z => negb (z =? 0)%Z
  | PFloat q => negb (Qeq_bool q (inject_Z 0))
  | PStr s => negb (String.eqb s "")
  | PStrList l => match l with [] => false | _ => true end
  end.

(** [any(l)] *)
Definition any (l : list pyval) : bool := existsb truthy l.

(** [str.lower].  Below 256 the code points with a lower-case
    counterpart are the letters [A]-[Z] and the letters U+00C0-U+00DE
    without the multiplication sign U+00D7; the counterpart is 32 code
    points further. *)
Definition lower_char (a : ascii) : ascii :=
  let n := N_of_ascii a in
  if ((65 <=? n) && (n <=? 90)
      || (192 <=? n) && (n <=? 222) && negb (n =? 215))%N
  then ascii_of_N (n + 32) else a.

Fixpoint lower (s : string) : string :=
  match s with
  | EmptyString => EmptyString
  | String a r => String (lower_char a) (lower r)
  end.

(** [str.upper] on the names of the levels of the [logging] module,
    which are ASCII. *)
Definition upper_ascii (a : ascii) : ascii :=
  let n := N_of_ascii a in
  if ((97 <=? n) && (n <=? 122))%N then ascii_of_N (n - 32) else a.

Fixpoint upper (s : string) : string :=
  match s with
  | EmptyString => EmptyString
  | String a r => String (upper_ascii a) (upper r)
  end.

(** [needle in hay] on sequences of characters: [needle] occurs as a
    contiguous block of [hay]. *)
Fixpoint starts_with {A} `{EqDecision A} (needle hay : list A) : bool :=
  match needle, hay with
  | [], _ => true
  | _ :: _, [] => false
  | a :: n', b :: h' => bool_decide (a = b) && starts_with n' h'
  end.

Fixpoint contains {A} `{EqDecision A} (needle hay : list A) : bool :=
  starts_with needle hay ||
  match hay with
  | [] => false
  | _ :: h' => contains needle h'
  end.

(** Code points for which [str.isspace] holds; [str.split()] splits on
    runs of them. *)
Definition is_space (c : N) : bool :=
  ((9 <=? c) && (c <=? 13) || (28 <=? c) && (c <=? 32) || (c =? 133)
   || (c =? 160) || (c =? 5760) || (8192 <=? c) && (c <=? 8202)
   || (c =? 8232) || (c =? 8233) || (c =? 8239) || (c =? 8287)
   || (c =? 12288))%N.

(** [len(s.split())]: the number of maximal runs of non-space
    characters.  [in_word] tells whether the previous character belonged
    to a word. *)
Fixpoint count_words_from (in_word : bool) (s : text) : Z :=
  match s with
  | [] => 0
  | c :: r =>
      if is_space c then count_words_from false r
      else ((if in_word then 0 else 1) + count_words_from true r)%Z
  end.

Definition count_words (s : text) : Z := count_words_from false s.

(** ** Exceptions, events and the computation monad *)

Inductive exn : Type :=
| KeyError (k : string)
| TypeError
| AttributeError (attr : string)
| ImportError
| OSError
| ValueError
| EngineError.

Inductive res (A : Type) : Type :=
| Ret (a : A)
| Raise (e : exn).
Arguments Ret {A} a.
Arguments Raise {A} e.

Inductive level : Type := INFO | WARNING | ERROR.

Inductive out_format : Type := Json | Markdown | Html | PlainText | Summary.

#[global] Instance out_format_eq_dec : EqDecision out_format.
Proof. solve_decision. Defined.

(** One constructor per message the two programs hand to the logger. *)
Inductive log_msg : Type :=
| MsgInitialized
| MsgAcceleratorUnavailable
| MsgStarting (name : string)
| MsgFileNotFound (path : string)
| MsgUnsupportedType (suffix : string)
| MsgFileTooLarge (size_mb : Q) (limit : pyval)
| MsgNotPdf (path : string)
| MsgConversionFailed (status : string)
| MsgProcessedIn (seconds : Q)
| MsgSaved (f : out_format) (path : string)
| MsgProcessingFailed (e : exn).

Inductive event : Type :=
| EvLog (l : level) (m : log_msg)
| EvMkdir (dir : string)
| EvConvert (path : string)
| EvWrite (f : out_format) (path : string) (ok : bool).

(** A computation yields a value or raises, and leaves a trace. *)
Definition IO (A : Type) : Type := res A * list event.

#[global] Instance IO_ret : MRet IO := λ A a, (Ret a, []).

#[global] Instance IO_bind : MBind IO := λ A B f m,
  let '(r, tr) := m in
  match r with
  | Ret a => let '(r', tr') := f a in (r', tr ++ tr')
  | Raise e => (Raise e, tr)
  end.

Definition raise {A} (e : exn) : IO A := (Raise e, []).

Definition emit (ev : event) : IO unit := (Ret tt, [ev]).

Definition log (l : level) (m : log_msg) : IO unit := emit (EvLog l m).

Definition lift_res {A} (r : res A) : IO A := (r, []).

(** [try: body except Exception as e: handler(e)] *)
Definition try_except {A} (body : IO A) (handler : exn → IO A) : IO A :=
  let '(r, tr) := body in
  match r with
  | Ret a => (Ret a, tr)
  | Raise e => let '(r', tr') := handler e in (r', tr ++ tr')
  end.

(** [d[k]] *)
Definition getitem (d : gmap string pyval) (k : string) : IO pyval :=
  match d !! k with
  | Some v => mret v
  | None => raise (KeyError k)
  end.

(** [x in c] for a string [x]: membership in a list, substring of a
    string, [TypeError] on an object that is not iterable. *)
Definition py_in (x : string) (c : pyval) : IO bool :=
  match c with
  | PStrList l => mret (bool_decide (x ∈ l))
  | PStr s => mret (contains (String.list_ascii_of_string x) (String.list_ascii_of_string s))
  | PBool _ | PInt _ | PFloat _ => raise TypeError
  end.

(** The number an object stands for in a comparison with a float. *)
Definition as_number (v : pyval) : option Q :=
  match v with
  | PBool b => Some (inject_Z (if b then 1 else 0))
  | PInt z => Some (inject_Z z)
  | PFloat q => Some q
  | PStr _ | PStrList _ => None
  end.

(** [x > v] for a float [x] *)
Definition py_gt (x : Q) (v : pyval) : IO bool :=
  match as_number v with
  | Some q => mret (negb (Qle_bool x q))
  | None => raise TypeError
  end.

(** [float(n)] for an integer [n] that is not negative and stays far
    from the overflow of a float, as the size of a file does: [n] itself
    below 2^53, otherwise [n] rounded to 53 significant bits, ties to
    even. *)
Definition nearest_float (n : Z) : Z :=
  if (n <? 2 ^ 53)%Z then n
  else
    let e := (Z.log2 n - 52)%Z in
    let q := (n / 2 ^ e)%Z in
    let r := (n mod 2 ^ e)%Z in
    let half := (2 ^ (e - 1))%Z in
    let q' := if (r <? half)%Z then q
              else if (half <? r)%Z then (q + 1)%Z
              else if Z.even q then q else (q + 1)%Z in
    (q' * 2 ^ e)%Z.

(** [n / (1024 * 1024)] for such an integer [n]: the float nearest to
    the quotient, by its exact value.  The divisor is a power of two, so
    this is the float nearest to [n], divided exactly. *)
Definition truediv_mib (n : Z) : Q :=
  (inject_Z (nearest_float n) / inject_Z (1024 * 1024))%Q.

(** [round(x, 2)]: to the nearest multiple of 1/100, ties to even. *)
Definition round2 (x : Q) : Q :=
  let n := (Qnum x * 100)%Z in
  let d := Z.pos (Qden x) in
  let fl := (n / d)%Z in
  let r := (n mod d)%Z in
  let k := if (2 * r <? d)%Z then fl
           else if (d <? 2 * r)%Z then (fl + 1)%Z
           else if Z.even fl then fl else (fl + 1)%Z in
  Qmake k 100.

(** ** The outside world *)

(** [pathlib.Path]: the attributes the programs read. *)
Record Path : Type := mkPath {
  path_str : string;
  name : string;
  stem : string;
  suffix : string
}.

(** A table of the converted document: [export_to_dataframe] yields a
    frame of a given [shape], or raises ([None]). *)
Record Table : Type := mkTable {
  export_to_dataframe : option (Z * Z)
}.

(** A picture: whether [hasattr(picture, 'classification')]. *)
Record Picture : Type := mkPicture {
  has_classification_attr : bool
}.

Inductive opaque_dict : Type := OpaqueDict (id : N).

(** The document handle: [texts] holds [str(item)] of each text item,
    [export_to_markdown_strict] the result of
    [export_to_markdown(strict_text=True)]. *)
Record Document : Type := mkDocument {
  num_pages : Z;
  tables : list Table;
  pictures : list Picture;
  texts : list text;
  export_to_markdown_strict : text;
  export_to_dict : opaque_dict
}.

Inductive ConversionStatus : Type :=
| PENDING | STARTED | FAILURE | SUCCESS | PARTIAL_SUCCESS | SKIPPED.

Definition status_name (s : ConversionStatus) : string :=
  match s with
  | PENDING => "PENDING"
  | STARTED => "STARTED"
  | FAILURE => "FAILURE"
  | SUCCESS => "SUCCESS"
  | PARTIAL_SUCCESS => "PARTIAL_SUCCESS"
  | SKIPPED => "SKIPPED"
  end.

Record ConversionResult : Type := mkResult {
  status : ConversionStatus;
  document : Document
}.

Inductive AcceleratorDevice : Type := AUTO | CPU | CUDA.

Record AcceleratorOptions : Type := mkAccelerator {
  acc_num_threads : pyval;
  acc_device : AcceleratorDevice
}.

(** [PdfPipelineOptions]: an attribute the program assigns on every run
    holds the assigned object; an attribute it assigns under a condition
    is [None] when left at the engine's default. *)
Record PdfPipelineOptions : Type := mkOptions {
  do_ocr : pyval;
  do_table_structure : pyval;
  do_cell_matching : option pyval;
  generate_page_images : pyval;
  generate_picture_images : pyval;
  do_picture_classification : pyval;
  images_scale : option pyval;
  do_code_enrichment : option pyval;
  do_formula_enrichment : option pyval;
  accelerator_options : option AcceleratorOptions
}.

Inductive ImageRefMode : Type := PLACEHOLDER | EMBEDDED | REFERENCED.

(** What the process finds when it is started: whether the Docling
    modules and the module of the accelerator options can be imported,
    which directories [mkdir(exist_ok=True)] can create, which log files
    [logging.FileHandler] can open, and which number of threads and
    device the engine accepts in [AcceleratorOptions]. *)
Record Env : Type := mkEnv {
  docling_available : bool;
  accelerator_available : bool;
  mkdir_ok : string → bool;
  log_file_ok : string → bool;
  accelerator_options_ok : pyval → AcceleratorDevice → bool
}.

(** What a call of [process_pdf] finds: the size of every path on which
    [stat] succeeds; among the other paths, those on which [stat] fails
    with an error that does not mean that the file is absent (a name
    that is too long, a directory that may not be searched); the engine's
    answer for a pipeline configuration and a path; which output formats
    fail to be written; and the clock. *)
Record World : Type := mkWorld {
  st_size : gmap string Z;
  stat_error : string → bool;
  engine : PdfPipelineOptions → string → res ConversionResult;
  write_fails : out_format → bool;
  elapsed : Q;
  now : string
}.

(** [converter.convert(pdf_file)] *)
Definition convert (w : World) (opts : PdfPipelineOptions) (p : Path)
  : IO ConversionResult :=
  emit (EvConvert (path_str p));; lift_res (engine w opts (path_str p)).

(** [pdf_file.exists()]: [True] when [stat] succeeds, [False] when it
    fails because the file is absent; any other error of [stat] is
    raised. *)
Definition path_exists (w : World) (p : Path) : IO bool :=
  match st_size w !! path_str p with
  | Some _ => mret true
  | None => if stat_error w (path_str p) then raise OSError else mret false
  end.

(** [pdf_file.stat().st_size] *)
Definition stat_size (w : World) (p : Path) : IO Z :=
  match st_size w !! path_str p with
  | Some n => mret n
  | None => raise OSError
  end.

(** Writing one artifact: the attempt is recorded; a failed one raises. *)
Definition write_artifact (w : World) (f : out_format) (path : string)
  : IO unit :=
  if write_fails w f then emit (EvWrite f path false);; raise OSError
  else emit (EvWrite f path true).

(** The pieces of a path string between its separators; [cur] holds the
    characters read since the last separator. *)
Fixpoint split_sep (cur s : string) : list string :=
  match s with
  | EmptyString => [cur]
  | String c r =>
      if Ascii.eqb c "/" then cur :: split_sep "" r
      else split_sep (cur +:+ String c "") r
  end.

(** The parts of a POSIX path: empty pieces and single dots are
    dropped. *)
Definition path_parts (s : string) : list string :=
  List.filter (λ x, negb (String.eqb x "") && negb (String.eqb x "."))
    (split_sep "" s).

(** Its root: one separator for an absolute path, two when the string
    starts with exactly two of them. *)
Definition path_root (s : string) : string :=
  match s with
  | String "/" (String "/" (String "/" _)) => "/"
  | String "/" (String "/" _) => "//"
  | String "/" _ => "/"
  | _ => ""
  end.

(** [str(Path(s))] on a POSIX system. *)
Definition path_spelling (s : string) : string :=
  let r := path_root s +:+ String.concat "/" (path_parts s) in
  if String.eqb r "" then "." else r.

(** [str(self.output_dir / f"{base}{ext}")], where [dir] is the spelling
    of the output directory and the file name [base ++ ext] holds no
    separator. *)
Definition joinpath (dir base ext : string) : string :=
  if String.eqb dir "." then base +:+ ext
  else if String.eqb dir "/" || String.eqb dir "//" then dir +:+ base +:+ ext
  else dir +:+ "/" +:+ base +:+ ext.

(** ** config.py *)

Definition PROCESSING_CONFIG : gmap string pyval :=
  list_to_map [
    ("enable_ocr", PBool true);
    ("ocr_languages", PStrList ["en"]);
    ("enable_tables", PBool true);
    ("table_cell_matching", PBool true);
    ("generate_page_images", PBool true);
    ("generate_picture_images", PBool true);
    ("enable_picture_classification", PBool true);
    ("image_resolution_scale", PInt 2);
    ("enable_code_enrichment", PBool false);
    ("enable_formula_enrichment", PBool false);
    ("num_threads", PInt 4);
    ("device", PStr "auto")
  ].

Definition OUTPUT_CONFIG : gmap string pyval :=
  list_to_map [
    ("output_directory", PStr "output");
    ("save_json", PBool true);
    ("save_markdown", PBool true);
    ("save_html", PBool true);
    ("save_text", PBool true);
    ("save_summary", PBool true);
    ("image_mode", PStr "placeholder");
    ("json_indent", PInt 2);
    ("json_ensure_ascii", PBool false)
  ].

Definition FILE_CONFIG : gmap string pyval :=
  list_to_map [
    ("supported_extensions", PStrList [".pdf"]);
    ("max_file_size_mb", PInt 100);
    ("create_backup", PBool false)
  ].

Definition LOGGING_CONFIG : gmap string pyval :=
  list_to_map [
    ("level", PStr "INFO");
    ("format", PStr "%(asctime)s - %(levelname)s - %(message)s");
    ("save_logs", PBool true);
    ("log_file", PStr "processing.log")
  ].

(** ** advanced_processor.py *)

Inductive handler : Type :=
| StreamHandler
| FileHandler (file : string).

Record Logger : Type := mkLogger {
  log_level : Z;
  log_format : pyval;
  handlers : list handler
}.

(** [getattr(logging, name)] for the level names of the [logging]
    module; any other name raises [AttributeError] here. *)
Definition getattr_logging (name : string) : IO Z :=
  if String.eqb name "CRITICAL" then mret 50%Z
  else if String.eqb name "FATAL" then mret 50%Z
  else if String.eqb name "ERROR" then mret 40%Z
  else if String.eqb name "WARNING" then mret 30%Z
  else if String.eqb name "WARN" then mret 30%Z
  else if String.eqb name "INFO" then mret 20%Z
  else if String.eqb name "DEBUG" then mret 10%Z
  else if String.eqb name "NOTSET" then mret 0%Z
  else raise (AttributeError name).

(** A method of [str] applied to an object that may not be one. *)
Definition as_str (v : pyval) : IO string :=
  match v with
  | PStr s => mret s
  | _ => raise (AttributeError "str")
  end.

(** [os.fspath(v)], as [logging.FileHandler] applies it to the name of
    its file. *)
Definition as_path (v : pyval) : IO string :=
  match v with
  | PStr s => mret s
  | _ => raise TypeError
  end.

(** [Path(v)], by its spelling. *)
Definition new_path (v : pyval) : IO string :=
  match v with
  | PStr s => mret (path_spelling s)
  | _ => raise TypeError
  end.

(** [device_map.get(v, AcceleratorDevice.AUTO)]; a list is not hashable. *)
Definition device_map_get (v : pyval) : IO AcceleratorDevice :=
  match v with
  | PStr s =>
      if String.eqb s "auto" then mret AUTO
      else if String.eqb s "cpu" then mret CPU
      else if String.eqb s "cuda" then mret CUDA
      else mret AUTO
  | PStrList _ => raise TypeError
  | PBool _ | PInt _ | PFloat _ => mret AUTO
  end.

(** [image_mode_map.get(v, ImageRefMode.PLACEHOLDER)] *)
Definition image_mode_map_get (v : pyval) : IO ImageRefMode :=
  match v with
  | PStr s =>
      if String.eqb s "placeholder" then mret PLACEHOLDER
      else if String.eqb s "embedded" then mret EMBEDDED
      else if String.eqb s "referenced" then mret REFERENCED
      else mret PLACEHOLDER
  | PStrList _ => raise TypeError
  | PBool _ | PInt _ | PFloat _ => mret PLACEHOLDER
  end.

Record Processor : Type := mkProcessor {
  processing_config : gmap string pyval;
  output_config : gmap string pyval;
  file_config : gmap string pyval;
  logger : Logger;
  output_dir : string;
  converter : PdfPipelineOptions
}.

Record TableSummary : Type := mkTableSummary {
  table_id : Z;
  rows : pyval;
  columns : pyval;
  has_headers : pyval
}.

Record ImageSummary : Type := mkImageSummary {
  image_id : Z;
  image_type : string;
  has_classification : bool
}.

Record ExtractionSummary : Type := mkSummary {
  pages : Z;
  summary_tables : list TableSummary;
  summary_images : list ImageSummary;
  text_preview : text
}.

Record Configuration : Type := mkConfiguration {
  ocr_enabled : pyval;
  table_extraction : pyval;
  image_processing : pyval;
  picture_classification : pyval
}.

Record Metadata : Type := mkMetadata {
  source_file : string;
  file_size_mb : Q;
  processing_time_seconds : Q;
  metadata_num_pages : Z;
  processor_version : string;
  processing_timestamp : string;
  configuration : Configuration
}.

Record Statistics : Type := mkStatistics {
  num_tables : Z;
  num_pictures : Z;
  num_figures : Z;
  estimated_word_count : Z
}.

Record Payload : Type := mkPayload {
  metadata : Metadata;
  statistics : Statistics;
  document_content : opaque_dict;
  extraction_summary : ExtractionSummary
}.

(** [AdvancedDoclingProcessor._setup_logging]: reads the module-level
    [LOGGING_CONFIG], whatever the caller passed to the constructor.
    [logging.FileHandler] opens the log file, and raises when it cannot.
    The handlers of the result are those this call adds to the logger of
    the module. *)
Definition _setup_logging (env : Env) : IO Logger :=
  lv ← getitem LOGGING_CONFIG "level";
  lvs ← as_str lv;
  log_level ← getattr_logging (upper lvs);
  fmt ← getitem LOGGING_CONFIG "format";
  save ← getitem LOGGING_CONFIG "save_logs";
  if truthy save then
    f ← getitem LOGGING_CONFIG "log_file";
    file ← as_path f;
    (if log_file_ok env file then mret tt else raise OSError);;
    mret (mkLogger log_level fmt [StreamHandler; FileHandler file])
  else mret (mkLogger log_level fmt [StreamHandler]).

(** [AdvancedDoclingProcessor._setup_converter] on
    [self.processing_config]; the result is the pipeline configuration
    the converter is bound to.  [AcceleratorOptions] validates its
    arguments, and raises when the engine does not accept them. *)
Definition _setup_converter (env : Env) (cfg : gmap string pyval)
  : IO PdfPipelineOptions :=
  ocr ← getitem cfg "enable_ocr";
  getitem cfg "enable_ocr";;
  tabs ← getitem cfg "enable_tables";
  tabs' ← getitem cfg "enable_tables";
  cell ← (if truthy tabs'
          then v ← getitem cfg "table_cell_matching"; mret (Some v)
          else mret None);
  page_img ← getitem cfg "generate_page_images";
  pic_img ← getitem cfg "generate_picture_images";
  classif ← getitem cfg "enable_picture_classification";
  page_img' ← getitem cfg "generate_page_images";
  scale ← (if truthy page_img'
           then v ← getitem cfg "image_resolution_scale"; mret (Some v)
           else mret None);
  code ← getitem cfg "enable_code_enrichment";
  formula ← getitem cfg "enable_formula_enrichment";
  acc ← (if accelerator_available env
         then dev ← getitem cfg "device";
              device ← device_map_get dev;
              threads ← getitem cfg "num_threads";
              (if accelerator_options_ok env threads device then mret tt
               else raise ValueError);;
              mret (Some (mkAccelerator threads device))
         else log WARNING MsgAcceleratorUnavailable;; mret None);
  mret (mkOptions ocr tabs cell page_img pic_img classif scale (Some code)
          (Some formula) acc).

(** [d.get(k, {})] on the override dictionary *)
Definition get_group (ov : gmap string (gmap string pyval)) (k : string)
  : gmap string pyval :=
  default ∅ (ov !! k).

(** [d.update(o)]: the keys of [o] are set in [d], the others stay. *)
Definition update (d o : gmap string pyval) : gmap string pyval := o ∪ d.

(** [AdvancedDoclingProcessor.__init__].  [output_dir] holds the
    spelling of the path of the output directory. *)
Definition __init__ (env : Env)
    (config_override : option (gmap string (gmap string pyval)))
  : IO Processor :=
  if negb (docling_available env) then raise ImportError
  else
    let processing_config := PROCESSING_CONFIG in
    let output_config := OUTPUT_CONFIG in
    let file_config := FILE_CONFIG in
    let '(processing_config, output_config, file_config) :=
      match config_override with
      | Some ov =>
          if bool_decide (ov ≠ ∅) then
            (update processing_config (get_group ov "processing"),
             update output_config (get_group ov "output"),
             update file_config (get_group ov "file"))
          else (processing_config, output_config, file_config)
      | None => (processing_config, output_config, file_config)
      end in
    logger ← _setup_logging env;
    dir ← getitem output_config "output_directory";
    output_dir ← new_path dir;
    emit (EvMkdir output_dir);;
    (if mkdir_ok env output_dir then mret tt else raise OSError);;
    converter ← _setup_converter env processing_config;
    log INFO MsgInitialized;;
    mret (mkProcessor processing_config output_config file_config logger
            output_dir converter).

(** [AdvancedDoclingProcessor._validate_input_file] *)
Definition _validate_input_file (self : Processor) (w : World)
    (pdf_file : Path) : IO bool :=
  present ← path_exists w pdf_file;
  if negb present then
    log ERROR (MsgFileNotFound (path_str pdf_file));;
    mret false
  else
    exts ← getitem (file_config self) "supported_extensions";
    found ← py_in (lower (suffix pdf_file)) exts;
    if negb found then
      log ERROR (MsgUnsupportedType (suffix pdf_file));;
      mret false
    else
      size ← stat_size w pdf_file;
      let file_size_mb := truediv_mib size in
      limit ← getitem (file_config self) "max_file_size_mb";
      too_large ← py_gt file_size_mb limit;
      if (too_large : bool) then
        limit' ← getitem (file_config self) "max_file_size_mb";
        log ERROR (MsgFileTooLarge file_size_mb limit');;
        mret false
      else mret true.

(** The loop over [enumerate(document.tables)] of
    [_generate_extraction_summary]; [i] is the index of the first table
    of [ts]. *)
Fixpoint table_summaries (i : Z) (ts : list Table) : list TableSummary :=
  match ts with
  | [] => []
  | table :: rest =>
      match export_to_dataframe table with
      | Some (nrows, ncols) =>
          mkTableSummary (i + 1) (PInt nrows) (PInt ncols) (PBool true)
      | None =>
          mkTableSummary (i + 1) (PStr "unknown") (PStr "unknown")
            (PStr "unknown")
      end :: table_summaries (i + 1) rest
  end.

(** The loop over [enumerate(document.pictures)]. *)
Fixpoint image_summaries (i : Z) (ps : list Picture) : list ImageSummary :=
  match ps with
  | [] => []
  | picture :: rest =>
      mkImageSummary (i + 1) "picture" (has_classification_attr picture)
      :: image_summaries (i + 1) rest
  end.

Definition ellipsis : text := text_of_string "...".

(** [AdvancedDoclingProcessor._generate_extraction_summary] *)
Definition _generate_extraction_summary (document : Document)
  : ExtractionSummary :=
  mkSummary
    (num_pages document)
    (table_summaries 0 (tables document))
    (image_summaries 0 (pictures document))
    (take 500 (export_to_markdown_strict document) ++ ellipsis).

(** [AdvancedDoclingProcessor._extract_comprehensive_data] *)
Definition _extract_comprehensive_data (self : Processor) (w : World)
    (document : Document) (pdf_file : Path) (processing_time : Q)
  : IO Payload :=
  let document_data := export_to_dict document in
  size ← stat_size w pdf_file;
  ocr ← getitem (processing_config self) "enable_ocr";
  tabs ← getitem (processing_config self) "enable_tables";
  img ← getitem (processing_config self) "generate_picture_images";
  classif ← getitem (processing_config self) "enable_picture_classification";
  let metadata :=
    mkMetadata
      (path_str pdf_file)
      (round2 (truediv_mib size))
      (round2 processing_time)
      (num_pages document)
      "Advanced Docling Processor v1.0"
      (now w)
      (mkConfiguration ocr tabs img classif) in
  let stats :=
    mkStatistics
      (Z.of_nat (length (tables document)))
      (Z.of_nat (length (pictures document)))
      (Z.of_nat (length (filter
         (λ item, Is_true (contains (text_of_string "Figure") item))
         (texts document))))
      (count_words (export_to_markdown_strict document)) in
  mret (mkPayload metadata stats document_data
          (_generate_extraction_summary document)).

(** [AdvancedDoclingProcessor._save_summary_report]: one file; its
    layout is not part of the model. *)
Definition _save_summary_report (w : World) (summary_path : string)
    (extracted_data : Payload) : IO unit :=
  write_artifact w Summary summary_path.

(** [AdvancedDoclingProcessor._save_all_outputs].  For the JSON output
    the file is opened before the arguments of [json.dump] are looked
    up. *)
Definition _save_all_outputs (self : Processor) (w : World)
    (document : Document) (pdf_file : Path) (extracted_data : Payload)
  : IO unit :=
  let base_filename := stem pdf_file in
  save_json ← getitem (output_config self) "save_json";
  (if truthy save_json then
     let json_path := joinpath (output_dir self) base_filename ".json" in
     write_artifact w Json json_path;;
     getitem (output_config self) "json_indent";;
     getitem (output_config self) "json_ensure_ascii";;
     log INFO (MsgSaved Json json_path)
   else mret tt);;
  mode ← getitem (output_config self) "image_mode";
  image_mode ← image_mode_map_get mode;
  save_markdown ← getitem (output_config self) "save_markdown";
  (if truthy save_markdown then
     let md_path := joinpath (output_dir self) base_filename ".md" in
     write_artifact w Markdown md_path;;
     log INFO (MsgSaved Markdown md_path)
   else mret tt);;
  save_html ← getitem (output_config self) "save_html";
  (if truthy save_html then
     let html_path := joinpath (output_dir self) base_filename ".html" in
     write_artifact w Html html_path;;
     log INFO (MsgSaved Html html_path)
   else mret tt);;
  save_text ← getitem (output_config self) "save_text";
  (if truthy save_text then
     let txt_path := joinpath (output_dir self) base_filename ".txt" in
     write_artifact w PlainText txt_path;;
     log INFO (MsgSaved PlainText txt_path)
   else mret tt);;
  save_summary ← getitem (output_config self) "save_summary";
  (if truthy save_summary then
     let summary_path :=
       joinpath (output_dir self) base_filename "_report.txt" in
     _save_summary_report w summary_path extracted_data;;
     log INFO (MsgSaved Summary summary_path)
   else mret tt).

(** [AdvancedDoclingProcessor.process_pdf]; [None] is Python's [None]. *)
Definition process_pdf (self : Processor) (w : World) (pdf_file : Path)
  : IO (option Payload) :=
  valid ← _validate_input_file self w pdf_file;
  if negb valid then mret None
  else
    log INFO (MsgStarting (name pdf_file));;
    try_except
      (result ← convert w (converter self) pdf_file;
       if negb (String.eqb (status_name (status result)) "SUCCESS") then
         log ERROR (MsgConversionFailed (status_name (status result)));;
         mret None
       else
         let processing_time := elapsed w in
         let document := document result in
         extracted_data ←
           _extract_comprehensive_data self w document pdf_file
             processing_time;
         save_json ← getitem (output_config self) "save_json";
         save_markdown ← getitem (output_config self) "save_markdown";
         save_html ← getitem (output_config self) "save_html";
         save_text ← getitem (output_config self) "save_text";
         (if any [save_json; save_markdown; save_html; save_text]
          then _save_all_outputs self w document pdf_file extracted_data
          else mret tt);;
         log INFO (MsgProcessedIn processing_time);;
         mret (Some extracted_data))
      (λ e, log ERROR (MsgProcessingFailed e);; mret None).

(** ** pdf_processor.py *)

Module Minimal.

Record Processor : Type := mkProcessor {
  output_dir : string;
  pipeline_options : PdfPipelineOptions
}.

Record ProcessingOptions : Type := mkProcessingOptions {
  ocr_enabled : pyval;
  table_extraction_enabled : pyval;
  picture_classification_enabled : pyval
}.

Record ProcessingMetadata : Type := mkProcessingMetadata {
  source_file : string;
  processing_time_seconds : Q;
  metadata_num_pages : Z;
  docling_version : string;
  processing_options : ProcessingOptions
}.

(** [document.export_to_dict()] with the key ['processing_metadata']
    added. *)
Record DocumentData : Type := mkDocumentData {
  exported : opaque_dict;
  processing_metadata : ProcessingMetadata
}.

(** [DoclingPDFProcessor.__init__] *)
Definition __init__ (env : Env) (enable_ocr enable_tables : bool)
  : IO Processor :=
  let output_dir := "output" in
  emit (EvMkdir output_dir);;
  (if mkdir_ok env output_dir then mret tt else raise OSError);;
  let options :=
    mkOptions (PBool enable_ocr) (PBool enable_tables)
      (if enable_tables then Some (PBool true) else None)
      (PBool true) (PBool true) (PBool true) None None None None in
  log INFO MsgInitialized;;
  mret (mkProcessor output_dir options).

(** [DoclingPDFProcessor._save_outputs]: four files, none of them
    under a condition. *)
Definition _save_outputs (self : Processor) (w : World)
    (document : Document) (pdf_file : Path) (document_data : DocumentData)
  : IO unit :=
  let base_filename := stem pdf_file in
  let json_path := joinpath (output_dir self) base_filename ".json" in
  write_artifact w Json json_path;;
  log INFO (MsgSaved Json json_path);;
  let md_path := joinpath (output_dir self) base_filename ".md" in
  write_artifact w Markdown md_path;;
  log INFO (MsgSaved Markdown md_path);;
  let html_path := joinpath (output_dir self) base_filename ".html" in
  write_artifact w Html html_path;;
  log INFO (MsgSaved Html html_path);;
  let summary_path :=
    joinpath (output_dir self) base_filename "_summary.txt" in
  write_artifact w Summary summary_path;;
  log INFO (MsgSaved Summary summary_path).

(** [DoclingPDFProcessor.process_pdf] *)
Definition process_pdf (self : Processor) (w : World) (pdf_file : Path)
  : IO (option DocumentData) :=
  present ← path_exists w pdf_file;
  if negb present then
    log ERROR (MsgFileNotFound (path_str pdf_file));;
    mret None
  else if negb (String.eqb (lower (suffix pdf_file)) ".pdf") then
    log ERROR (MsgNotPdf (path_str pdf_file));;
    mret None
  else
    log INFO (MsgStarting (name pdf_file));;
    try_except
      (result ← convert w (pipeline_options self) pdf_file;
       if negb (String.eqb (status_name (status result)) "SUCCESS")
       then
         log ERROR (MsgConversionFailed (status_name (status result)));;
         mret None
       else
         let processing_time := elapsed w in
         log INFO (MsgProcessedIn processing_time);;
         let document := document result in
         let document_data :=
           mkDocumentData (export_to_dict document)
             (mkProcessingMetadata
                (path_str pdf_file)
                (round2 processing_time)
                (num_pages document)
                "Latest"
                (mkProcessingOptions
                   (do_ocr (pipeline_options self))
                   (do_table_structure (pipeline_options self))
                   (do_picture_classification (pipeline_options self))))
         in
         _save_outputs self w document pdf_file document_data;;
         mret (Some document_data))
      (λ e, log ERROR (MsgProcessingFailed e);; mret None).

End Minimal.

(** ** Reading a trace *)

(** The write attempts of a trace, in order, each with its outcome. *)
Fixpoint writes (tr : list event) : list (out_format * bool) :=
  match tr with
  | [] => []
  | EvWrite f _ ok :: r => (f, ok) :: writes r
  | _ :: r => writes r
  end.

(** Whether the trace holds an attempt to write format [f]. *)
Definition attempted (f : out_format) (tr : list event) : bool :=
  bool_decide (f ∈ (writes tr).*1).

(** The paths handed to the engine, in order. *)
Fixpoint conversions (tr : list event) : list string :=
  match tr with
  | [] => []
  | EvConvert p :: r => p :: conversions r
  | _ :: r => conversions r
  end.

(** The messages logged at level [ERROR], in order. *)
Fixpoint errors (tr : list event) : list log_msg :=
  match tr with
  | [] => []
  | EvLog ERROR m :: r => m :: errors r
  | _ :: r => errors r
  end.

(** ** Sample inputs *)

(** Docling with its accelerator options, a writable working directory,
    and an engine that accepts every accelerator option. *)
Definition sample_env : Env :=
  mkEnv true true (λ _, true) (λ _, true) (λ _ _, true).

(** The same without the module of the accelerator options, and
    without Docling. *)
Definition no_accelerator_env : Env :=
  mkEnv true false (λ _, true) (λ _, true) (λ _ _, true).

Definition no_docling_env : Env :=
  mkEnv false true (λ _, true) (λ _, true) (λ _ _, true).

Definition sample_document : Document :=
  mkDocument 2
    [mkTable (Some (3, 4)%Z); mkTable None; mkTable (Some (7, 2)%Z)]
    [mkPicture true; mkPicture false]
    [text_of_string "Figure 1: layout"; text_of_string "Body"]
    (text_of_string "Body of the  document")
    (OpaqueDict 1).

Definition sample_path : Path := mkPath "in/doc.PDF" "doc.PDF" "doc" ".PDF".

(** A world holding [sample_path] with [size] bytes and no other file,
    whose engine answers with status [s], and where the formats of
    [failing] cannot be written. *)
Definition sample_world (size : Z) (s : ConversionStatus)
    (failing : list out_format) : World :=
  mkWorld {[ "in/doc.PDF" := size ]} (λ _, false)
    (λ _ _, Ret (mkResult s sample_document))
    (λ f, bool_decide (f ∈ failing))
    (5 # 4) "2025-01-01 00:00:00".

(** The logger [_setup_logging] builds from [LOGGING_CONFIG]: level
    [logging.INFO], a console handler and a file handler. *)
Definition default_logger : Logger :=
  mkLogger 20 (PStr "%(asctime)s - %(levelname)s - %(message)s")
    [StreamHandler; FileHandler "processing.log"].

(** The processor [AdvancedDoclingProcessor()] builds from the defaults
    of [config.py] in [sample_env], with [file_config] replaced by
    [file] and [output_config] by [output]. *)
Definition sample_processor (output file : gmap string pyval) : Processor :=
  mkProcessor PROCESSING_CONFIG output file default_logger "output"
    (mkOptions (PBool true) (PBool true) (Some (PBool true)) (PBool true)
       (PBool true) (PBool true) (Some (PInt 2)) (Some (PBool false))
       (Some (PBool false)) (Some (mkAccelerator (PInt 4) AUTO))).

Definition default_processor : Processor :=
  sample_processor OUTPUT_CONFIG FILE_CONFIG.

(** ** The specification's wording of the checks *)

Inductive ValidationError : Type := NotFound | UnsupportedType | TooLarge.

(** Case-insensitive membership: some supported extension equals the
    file's extension up to the case of the letters. *)
Definition case_insensitive_member (ext : string) (supported : list string)
  : bool :=
  existsb (λ e, String.eqb (lower e) (lower ext)) supported.

(** The validator of the specification: existence, then case-insensitive
    membership of the extension, then the size ceiling; [None] when the
    three checks pass.  [size] is the size of the file when it exists. *)
Definition spec_validate (supported : list string) (max_file_size_mb : Q)
    (size : option Z) (ext : string) : option ValidationError :=
  match size with
  | None => Some NotFound
  | Some n =>
      if negb (case_insensitive_member ext supported)
      then Some UnsupportedType
      else if negb (Qle_bool (inject_Z n / inject_Z (1024 * 1024))
                      max_file_size_mb)
      then Some TooLarge
      else None
  end.

(** The error kind a logged message stands for. *)
Definition error_kind (m : log_msg) : option ValidationError :=
  match m with
  | MsgFileNotFound _ => Some NotFound
  | MsgUnsupportedType _ => Some UnsupportedType
  | MsgFileTooLarge _ _ => Some TooLarge
  | _ => None
  end.

(** An override that configures the extension in upper case, and the
    processor the constructor builds from it. *)
Definition upper_case_override : gmap string (gmap string pyval) :=
  {[ "file" := {[ "supported_extensions" := PStrList [".PDF"] ]} ]}.

Definition upper_case_processor : Processor :=
  sample_processor OUTPUT_CONFIG
    (update FILE_CONFIG (get_group upper_case_override "file")).

(** A file in a directory that may not be searched: [stat] fails on its
    path, and not because the file is absent. *)
Definition locked_path : Path :=
  mkPath "locked/doc.pdf" "doc.pdf" "doc" ".pdf".

Definition locked_world : World :=
  mkWorld ∅ (λ path, String.eqb path "locked/doc.pdf")
    (λ _ _, Ret (mkResult SUCCESS sample_document))
    (λ _, false) (5 # 4) "2025-01-01 00:00:00".

(** An override that sets the size ceiling to 2^33 megabytes, that is
    2^53 bytes, and the processor the constructor builds from it. *)
Definition huge_ceiling_override : gmap string (gmap string pyval) :=
  {[ "file" := {[ "max_file_size_mb" := PInt 8589934592 ]} ]}.

Definition huge_ceiling_processor : Processor :=
  sample_processor OUTPUT_CONFIG
    (update FILE_CONFIG (get_group huge_ceiling_override "file")).

(** ** The output flags *)

(** The key of [output_config] that enables a format. *)
Definition flag_key (f : out_format) : string :=
  match f with
  | Json => "save_json"
  | Markdown => "save_markdown"
  | Html => "save_html"
  | PlainText => "save_text"
  | Summary => "save_summary"
  end.

Definition enabled (self : Processor) (f : out_format) : bool :=
  truthy (output_config self !!! flag_key f).

(** The formats in the order in which [_save_all_outputs] handles them. *)
Definition all_formats : list out_format :=
  [Json; Markdown; Html; PlainText; Summary].

(** Writing the formats of [l] one after the other until one fails. *)
Fixpoint attempts (fails : out_format → bool) (l : list out_format)
  : list (out_format * bool) :=
  match l with
  | [] => []
  | f :: r => if fails f then [(f, false)] else (f, true) :: attempts fails r
  end.

Definition has_key (d : gmap string pyval) (k : string) : bool :=
  bool_decide (is_Some (d !! k)).

(** The output group holds every key [_save_all_outputs] reads, and its
    image mode is hashable: the writer raises no [KeyError] and no
    [TypeError]. *)
Definition output_ready (self : Processor) : bool :=
  forallb (has_key (output_config self))
    ["save_json"; "json_indent"; "json_ensure_ascii"; "image_mode";
     "save_markdown"; "save_html"; "save_text"; "save_summary"]
  && match output_config self !! "image_mode" with
     | Some (PStrList _) => false
     | _ => true
     end.

(** The four JSON, Markdown, HTML and text flags switched off; the
    summary flag keeps its default, [True]. *)
Definition summary_only_override : gmap string (gmap string pyval) :=
  {[ "output" :=
       list_to_map [("save_json", PBool false); ("save_markdown", PBool false);
                    ("save_html", PBool false); ("save_text", PBool false)] ]}.

Definition summary_only_processor : Processor :=
  sample_processor
    (update OUTPUT_CONFIG (get_group summary_only_override "output"))
    FILE_CONFIG.

(** The payload [_extract_comprehensive_data] builds for
    [sample_document] at [sample_path], 1000 bytes long. *)
Definition sample_payload : Payload :=
  mkPayload
    (mkMetadata "in/doc.PDF"
       (round2 (truediv_mib 1000)) (round2 (5 # 4)) 2
       "Advanced Docling Processor v1.0" "2025-01-01 00:00:00"
       (mkConfiguration (PBool true) (PBool true) (PBool true) (PBool true)))
    (mkStatistics 3 2 1 4)
    (OpaqueDict 1)
    (_generate_extraction_summary sample_document).

(** ** Overrides *)

(** The group [g] of the override the constructor is given; empty when
    there is no override. *)
Definition override_group
    (config_override : option (gmap string (gmap string pyval))) (g : string)
  : gmap string pyval :=
  match config_override with
  | Some ov => get_group ov g
  | None => ∅
  end.

(** An override of the logging level. *)
Definition logging_override : gmap string (gmap string pyval) :=
  {[ "logging" := {[ "level" := PStr "DEBUG" ]} ]}.

(** Table extraction switched off, page images switched off, and a
    device name outside the enumeration. *)
Definition plain_override : gmap string (gmap string pyval) :=
  {[ "processing" :=
       list_to_map [("enable_tables", PBool false);
                    ("generate_page_images", PBool false);
                    ("device", PStr "tpu")] ]}.

(** ** The minimal variant *)

(** The same world with the file at [path] given [size] bytes. *)
Definition resize (w : World) (path : string) (size : Z) : World :=
  mkWorld (<[path := size]> (st_size w)) (stat_error w) (engine w)
    (write_fails w) (elapsed w) (now w).

(** The processor [DoclingPDFProcessor()] builds. *)
Definition minimal_processor : Minimal.Processor :=
  Minimal.mkProcessor "output"
    (mkOptions (PBool true) (PBool true) (Some (PBool true)) (PBool true)
       (PBool true) (PBool true) None None None None).

(** The pipeline configuration [_setup_converter] builds under
    [plain_override]. *)
Definition plain_options : PdfPipelineOptions :=
  mkOptions (PBool true) (PBool false) None (PBool false) (PBool true)
    (PBool true) None (Some (PBool false)) (Some (PBool false))
    (Some (mkAccelerator (PInt 4) AUTO)).

(** ** The command lines *)

(** What the two [main] functions print on standard output, one
    constructor per block of [print] calls. *)
Inductive stdout_msg : Type :=
| OutUsage
| OutPlaceholder
| OutSuccess (pdf_path : string) (pages : Z) (seconds : Q)
    (n_tables n_pictures : Z)
| OutMinimalSuccess (pdf_path : string) (pages : Z) (seconds : Q)
    (base_name : string)
| OutFailed
| OutImportError
| OutUnexpected (e : exn)
| OutTraceback (e : exn).

(** The end of a run of a script: the exit status of the interpreter,
    what was printed, and the events of the run. *)
Record Exit : Type := mkExit {
  exit_code : Z;
  stdout : list stdout_msg;
  trace : list event
}.

(** The part of [main] of [advanced_processor.py] that reads the options
    from [sys.argv] into [config_override]. *)
Definition cli_override (argv : list string)
  : gmap string (gmap string pyval) :=
  let processing : gmap string pyval := ∅ in
  let processing :=
    if bool_decide ("--no-ocr" ∈ argv)
    then <["enable_ocr" := PBool false]> processing else processing in
  let processing :=
    if bool_decide ("--no-tables" ∈ argv)
    then <["enable_tables" := PBool false]> processing else processing in
  let processing :=
    if bool_decide ("--simple" ∈ argv)
    then update processing
           (list_to_map [("enable_picture_classification", PBool false);
                         ("enable_code_enrichment", PBool false);
                         ("enable_formula_enrichment", PBool false);
                         ("generate_picture_images", PBool false)])
    else processing in
  <["processing" := processing]> (<["output" := ∅]> ∅).

(** The two handlers of [main]: [except ImportError] and
    [except Exception]. *)
Definition main_handler (e : exn) : stdout_msg :=
  match e with
  | ImportError => OutImportError
  | _ => OutUnexpected e
  end.

(** The test for the placeholder of the two [main] functions:
    [pdf_path == "sample_document.pdf" and not Path(pdf_path).exists()].
    [Path_] is the constructor of [pathlib.Path]. *)
Definition is_placeholder (Path_ : string → Path) (w : World)
    (pdf_path : string) : IO bool :=
  if String.eqb pdf_path "sample_document.pdf"
  then present ← path_exists w (Path_ pdf_path); mret (negb present)
  else mret false.

(** [main] of [advanced_processor.py].  [sys.exit(1)] ends the run with
    status 1, the end of [main] with status 0; the test for the
    placeholder is made outside the [try] block, an exception it raises
    ends the run with a traceback and status 1. *)
Definition main (Path_ : string → Path) (env : Env) (w : World)
    (argv : list string) : Exit :=
  match argv with
  | _ :: pdf_path :: _ =>
      let config_override := cli_override argv in
      match (is_placeholder Path_ w pdf_path).1 with
      | Raise e => mkExit 1 [OutTraceback e] []
      | Ret true => mkExit 1 [OutPlaceholder] []
      | Ret false =>
        let '(r, tr) := __init__ env (Some config_override) in
        match r with
        | Raise e => mkExit 1 [main_handler e] tr
        | Ret processor =>
            let '(r', tr') := process_pdf processor w (Path_ pdf_path) in
            match r' with
            | Ret (Some result) =>
                mkExit 0
                  [OutSuccess pdf_path
                     (metadata_num_pages (metadata result))
                     (processing_time_seconds (metadata result))
                     (num_tables (statistics result))
                     (num_pictures (statistics result))]
                  (tr ++ tr')
            | Ret None => mkExit 1 [OutFailed] (tr ++ tr')
            | Raise e => mkExit 1 [main_handler e] (tr ++ tr')
            end
        end
      end
  | _ => mkExit 1 [OutUsage] []
  end.

Module MinimalCli.

(** [main] of [pdf_processor.py]: nothing is caught, an exception ends
    the run with a traceback and status 1. *)
Definition main (Path_ : string → Path) (env : Env) (w : World)
    (argv : list string) : Exit :=
  match argv with
  | [_; pdf_path] =>
      match (is_placeholder Path_ w pdf_path).1 with
      | Raise e => mkExit 1 [OutTraceback e] []
      | Ret true => mkExit 1 [OutPlaceholder] []
      | Ret false =>
        let '(r, tr) := Minimal.__init__ env true true in
        match r with
        | Raise e => mkExit 1 [OutTraceback e] tr
        | Ret processor =>
            let '(r', tr') :=
              Minimal.process_pdf processor w (Path_ pdf_path) in
            match r' with
            | Ret (Some result) =>
                mkExit 0
                  [OutMinimalSuccess pdf_path
                     (Minimal.metadata_num_pages
                        (Minimal.processing_metadata result))
                     (Minimal.processing_time_seconds
                        (Minimal.processing_metadata result))
                     (stem (Path_ pdf_path))]
                  (tr ++ tr')
            | Ret None => mkExit 1 [OutFailed] (tr ++ tr')
            | Raise e => mkExit 1 [OutTraceback e] (tr ++ tr')
            end
        end
      end
  | _ => mkExit 1 [OutUsage] []
  end.

End MinimalCli.

(** ** Reading the artifacts of a trace *)

(** The fixed suffix [_save_all_outputs] gives the file of a format. *)
Definition artifact_suffix (f : out_format) : string :=
  match f with
  | Json => ".json"
  | Markdown => ".md"
  | Html => ".html"
  | PlainText => ".txt"
  | Summary => "_report.txt"
  end.

(** The same for [_save_outputs] of the minimal variant. *)
Definition minimal_suffix (f : out_format) : string :=
  match f with
  | Json => ".json"
  | Markdown => ".md"
  | Html => ".html"
  | PlainText => ".txt"
  | Summary => "_summary.txt"
  end.

(** The four files of the minimal variant, in the order in which
    [_save_outputs] writes them. *)
Definition minimal_formats : list out_format :=
  [Json; Markdown; Html; Summary].

(** The files a trace attempts to write, in order. *)
Fixpoint written_paths (tr : list event) : list (out_format * string) :=
  match tr with
  | [] => []
  | EvWrite f path _ :: r => (f, path) :: written_paths r
  | _ :: r => written_paths r
  end.

(** The directories a trace creates, in order. *)
Fixpoint mkdirs (tr : list event) : list string :=
  match tr with
  | [] => []
  | EvMkdir d :: r => d :: mkdirs r
  | _ :: r => mkdirs r
  end.

(** A path constructor for the sample inputs: every string is read as
    the path of a file named [doc.PDF]. *)
Definition sample_Path (s : string) : Path := mkPath s "doc.PDF" "doc" ".PDF".

(** A processor whose size ceiling is a string, and one whose supported
    extensions are a single string instead of a list. *)
Definition string_limit_processor : Processor :=
  sample_processor OUTPUT_CONFIG
    (update FILE_CONFIG {[ "max_file_size_mb" := PStr "100" ]}).

Definition string_extensions_processor : Processor :=
  sample_processor OUTPUT_CONFIG
    (update FILE_CONFIG {[ "supported_extensions" := PStr ".pdf" ]}).

(** A path without a suffix. *)
Definition bare_path : Path := mkPath "in/README" "README" "README" "".

(** A world whose engine raises. *)
Definition raising_world : World :=
  mkWorld {[ "in/doc.PDF" := 1000%Z ]} (λ _, false)
    (λ _ _, Raise EngineError) (λ _, false) (5 # 4) "2025-01-01 00:00:00".

(** * Properties *)

Arguments path_spelling : simpl never.
Arguments joinpath : simpl never.

(** ** The computation monad *)

Lemma bind_Ret {A B} (f : A → IO B) (a : A) (tr : list event) :
  mbind f ((Ret a, tr) : IO A) = ((f a).1, tr ++ (f a).2).
Proof. unfold mbind, IO_bind. by destruct (f a). Qed.

Lemma bind_Raise {A B} (f : A → IO B) (e : exn) (tr : list event) :
  mbind f ((Raise e, tr) : IO A) = (Raise e, tr).
Proof. reflexivity. Qed.

Lemma writes_app (t1 t2 : list event) :
  writes (t1 ++ t2) = writes t1 ++ writes t2.
Proof.
  induction t1 as [|ev t1 IH]; [done|].
  destruct ev; simpl; by rewrite ?IH.
Qed.

Lemma conversions_app (t1 t2 : list event) :
  conversions (t1 ++ t2) = conversions t1 ++ conversions t2.
Proof.
  induction t1 as [|ev t1 IH]; [done|].
  destruct ev; simpl; by rewrite ?IH.
Qed.

(** Unfolding the monad operations down to pairs. *)
Ltac io_unfold :=
  unfold mbind, mret, IO_bind, IO_ret, raise, log, emit, lift_res,
    try_except in *.

(** Case analysis on whatever the goal still matches on. *)
Ltac io_cases :=
  repeat (simpl in *;
    match goal with
    | |- context [match ?x with _ => _ end] =>
        lazymatch x with
        | context [match _ with _ => _ end] => fail
        | _ => destruct x eqn:?
        end
    end);
  simpl in *.

(** ** Input validation *)

(** A validation that accepts the file has logged nothing. *)
Lemma validate_true_silent (self : Processor) (w : World) (p : Path) :
  (_validate_input_file self w p).1 = Ret true →
  (_validate_input_file self w p).2 = [].
Proof.
  unfold _validate_input_file, path_exists, stat_size, getitem, py_in, py_gt.
  io_unfold. io_cases; intros; try discriminate; reflexivity.
Qed.

(** A validation that rejects the file ends [process_pdf] at once. *)
Lemma process_pdf_rejected (self : Processor) (w : World) (p : Path) :
  (_validate_input_file self w p).1 = Ret false →
  process_pdf self w p = (Ret None, (_validate_input_file self w p).2).
Proof.
  intros H. unfold process_pdf.
  destruct (_validate_input_file self w p) as [r tr]. simpl in H. subst r.
  rewrite bind_Ret. simpl. by rewrite app_nil_r.
Qed.

(** A validation that raises ends [process_pdf] with its exception: the
    validation is made outside the [try] block. *)
Lemma process_pdf_validation_raises (self : Processor) (w : World) (p : Path)
    (e : exn) :
  (_validate_input_file self w p).1 = Raise e →
  process_pdf self w p = (Raise e, (_validate_input_file self w p).2).
Proof.
  intros H. unfold process_pdf.
  destruct (_validate_input_file self w p) as [r tr]. simpl in H. by subst r.
Qed.

(** The three checks of [_validate_input_file], in the order in which
    they are made, for a configuration whose extensions are a list and
    whose ceiling is a number. *)
Lemma validate_checks (self : Processor) (w : World) (p : Path)
    (exts : list string) (limit : pyval) (q : Q) :
  file_config self !! "supported_extensions" = Some (PStrList exts) →
  file_config self !! "max_file_size_mb" = Some limit →
  as_number limit = Some q →
  _validate_input_file self w p =
    match st_size w !! path_str p with
    | None =>
        if stat_error w (path_str p) then (Raise OSError, [])
        else (Ret false, [EvLog ERROR (MsgFileNotFound (path_str p))])
    | Some size =>
        if bool_decide (lower (suffix p) ∈ exts) then
          if Qle_bool (truediv_mib size) q
          then (Ret true, [])
          else (Ret false,
                [EvLog ERROR (MsgFileTooLarge (truediv_mib size) limit)])
        else (Ret false, [EvLog ERROR (MsgUnsupportedType (suffix p))])
    end.
Proof.
  intros Hexts Hlimit Hq.
  unfold _validate_input_file, path_exists, stat_size, getitem, py_in, py_gt.
  rewrite Hexts, Hlimit. io_unfold.
  destruct (st_size w !! path_str p) as [size|];
    [|by destruct (stat_error w (path_str p))].
  simpl.
  destruct (bool_decide (lower (suffix p) ∈ exts)); simpl; [|reflexivity].
  rewrite Hq. simpl.
  destruct (Qle_bool _ q); reflexivity.
Qed.

Lemma validate_no_engine (self : Processor) (w : World) (p : Path) :
  conversions (_validate_input_file self w p).2 = [] ∧
  writes (_validate_input_file self w p).2 = [].
Proof.
  unfold _validate_input_file, path_exists, stat_size, getitem, py_in, py_gt.
  io_unfold. io_cases; auto.
Qed.

Lemma lower_char_idem (a : ascii) : lower_char (lower_char a) = lower_char a.
Proof. destruct a as [[] [] [] [] [] [] [] []]; reflexivity. Qed.

Lemma lower_idem (s : string) : lower (lower s) = lower s.
Proof.
  induction s as [|a s IH]; simpl; [done|].
  by rewrite lower_char_idem, IH.
Qed.

(** Up to 2^53 every integer is a float. *)
Lemma nearest_float_exact (n : Z) : (n ≤ 2 ^ 53)%Z → nearest_float n = n.
Proof.
  intros Hn. unfold nearest_float.
  destruct (Z.ltb_spec n (2 ^ 53)) as [|Hge]; [done|].
  assert (n = 2 ^ 53)%Z as -> by lia. reflexivity.
Qed.

Lemma truediv_mib_exact (n : Z) :
  (n ≤ 2 ^ 53)%Z →
  truediv_mib n = (inject_Z n / inject_Z (1024 * 1024))%Q.
Proof. intros Hn. unfold truediv_mib. by rewrite nearest_float_exact. Qed.

(** On a list of lower-case extensions the test of the program is the
    case-insensitive membership of the specification. *)
Lemma lower_member_case_insensitive (ext : string) (exts : list string) :
  Forall (λ e, lower e = e) exts →
  bool_decide (lower ext ∈ exts) = case_insensitive_member ext exts.
Proof.
  unfold case_insensitive_member.
  induction 1 as [|e exts He _ IH]; cbn [existsb].
  - apply bool_decide_eq_false_2, not_elem_of_nil.
  - rewrite He, <- IH. destruct (String.eqb_spec e (lower ext)) as [->|Hne].
    + apply bool_decide_eq_true_2, list_elem_of_here.
    + cbn [orb]. apply bool_decide_ext. rewrite elem_of_cons.
      split; [intros [Heq|Hin]; [by destruct Hne|done] | by right].
Qed.

(** With lower-case extensions configured, for a path on which [stat]
    does not fail with an error of its own and a file of at most 2^53
    bytes, the program decides as the validator of the specification
    does, and logs the message of the error kind the specification
    names. *)
Lemma validate_refines_spec (self : Processor) (w : World) (p : Path)
    (exts : list string) (limit : pyval) (q : Q) :
  file_config self !! "supported_extensions" = Some (PStrList exts) →
  file_config self !! "max_file_size_mb" = Some limit →
  as_number limit = Some q →
  Forall (λ e, lower e = e) exts →
  stat_error w (path_str p) = false →
  (∀ size, st_size w !! path_str p = Some size → (size ≤ 2 ^ 53)%Z) →
  match spec_validate exts q (st_size w !! path_str p) (suffix p) with
  | None => _validate_input_file self w p = (Ret true, [])
  | Some kind =>
      (_validate_input_file self w p).1 = Ret false
      ∧ error_kind <$> errors (_validate_input_file self w p).2 = [Some kind]
  end.
Proof.
  intros Hexts Hlimit Hq Hlower Hstat Hsmall.
  rewrite (validate_checks _ _ _ _ _ _ Hexts Hlimit Hq), Hstat.
  unfold spec_validate.
  rewrite <- (lower_member_case_insensitive _ _ Hlower).
  destruct (st_size w !! path_str p) as [size|]; [|done].
  rewrite (truediv_mib_exact size) by by apply Hsmall.
  destruct (bool_decide (lower (suffix p) ∈ exts)); [|done]. simpl.
  destruct (Qle_bool _ q); done.
Qed.

(** C5, as amended: the three checks are made in the order existence,
    membership of the lower-cased extension in [supported_extensions] as
    configured, size ceiling on the float [st_size / (1024 * 1024)]; the
    first one that fails ends the validation with its own error message;
    after a failed validation [process_pdf] returns [None] without
    calling the engine.  The existence test can also raise: when [stat]
    fails with an error that does not mean that the file is absent, the
    validation and [process_pdf] raise that error, nothing is logged and
    the engine is not called.  The second check is the case-insensitive
    membership when the configured extensions are lower-case. *)
Theorem validation_order_and_short_circuit (self : Processor) (w : World)
    (p : Path) (exts : list string) (limit : pyval) (q : Q) :
  file_config self !! "supported_extensions" = Some (PStrList exts) →
  file_config self !! "max_file_size_mb" = Some limit →
  as_number limit = Some q →
  _validate_input_file self w p =
    match st_size w !! path_str p with
    | None =>
        if stat_error w (path_str p) then (Raise OSError, [])
        else (Ret false, [EvLog ERROR (MsgFileNotFound (path_str p))])
    | Some size =>
        if bool_decide (lower (suffix p) ∈ exts) then
          if Qle_bool (truediv_mib size) q
          then (Ret true, [])
          else (Ret false,
                [EvLog ERROR (MsgFileTooLarge (truediv_mib size) limit)])
        else (Ret false, [EvLog ERROR (MsgUnsupportedType (suffix p))])
    end
  ∧ ((_validate_input_file self w p).1 = Ret false →
     process_pdf self w p = (Ret None, (_validate_input_file self w p).2)
     ∧ conversions (process_pdf self w p).2 = [])
  ∧ (∀ e, (_validate_input_file self w p).1 = Raise e →
     process_pdf self w p = (Raise e, (_validate_input_file self w p).2)
     ∧ conversions (process_pdf self w p).2 = [])
  ∧ (Forall (λ e, lower e = e) exts →
     bool_decide (lower (suffix p) ∈ exts)
     = case_insensitive_member (suffix p) exts).
Proof.
  intros Hexts Hlimit Hq. split; [|split; [|split]].
  - by apply validate_checks.
  - intros Hrej. rewrite (process_pdf_rejected _ _ _ Hrej). split; [done|].
    apply validate_no_engine.
  - intros e Hraise. rewrite (process_pdf_validation_raises _ _ _ _ Hraise).
    split; [done|]. apply validate_no_engine.
  - apply lower_member_case_insensitive.
Qed.

(** C5: the constructor is given [[".PDF"]] as the supported extensions.
    The file exists, its extension [.PDF] is a member of that list
    whatever the case, and its size is under the ceiling, so the
    validator of the specification accepts it; the program rejects it as
    an unsupported type.  And for a file in a directory that may not be
    searched, the first check ends with no error kind at all:
    [process_pdf] raises. *)
Lemma validation_upper_case_extension_rejected :
  __init__ sample_env (Some upper_case_override)
    = (Ret upper_case_processor,
       [EvMkdir "output"; EvLog INFO MsgInitialized])
  ∧ file_config upper_case_processor !! "supported_extensions"
    = Some (PStrList [".PDF"])
  ∧ spec_validate [".PDF"] (inject_Z 100)
      (st_size (sample_world 1000 SUCCESS []) !! path_str sample_path)
      (suffix sample_path) = None
  ∧ _validate_input_file upper_case_processor
      (sample_world 1000 SUCCESS []) sample_path
    = (Ret false, [EvLog ERROR (MsgUnsupportedType ".PDF")])
  ∧ process_pdf default_processor locked_world locked_path
    = (Raise OSError, []).
Proof. repeat split. Qed.

Lemma validation_order_witness :
  _validate_input_file default_processor (sample_world 1000 SUCCESS [])
    (mkPath "in/doc.txt" "doc.txt" "doc" ".txt")
  = (Ret false, [EvLog ERROR (MsgFileNotFound "in/doc.txt")]).
Proof.
  refine (proj1 (validation_order_and_short_circuit default_processor
    (sample_world 1000 SUCCESS [])
    (mkPath "in/doc.txt" "doc.txt" "doc" ".txt")
    [".pdf"] (PInt 100) (inject_Z 100) _ _ _)); reflexivity.
Defined.

(** ** Conversion status *)

(** What [process_pdf] does once the file is accepted and the engine
    answers with a status other than [SUCCESS]. *)
Lemma process_pdf_not_success (self : Processor) (w : World) (p : Path)
    (r : ConversionResult) :
  (_validate_input_file self w p).1 = Ret true →
  engine w (converter self) (path_str p) = Ret r →
  String.eqb (status_name (status r)) "SUCCESS" = false →
  process_pdf self w p =
    (Ret None,
     [EvLog INFO (MsgStarting (name p));
      EvConvert (path_str p);
      EvLog ERROR (MsgConversionFailed (status_name (status r)))]).
Proof.
  intros Hvalid Hengine Hstatus.
  pose proof (validate_true_silent _ _ _ Hvalid) as Hsilent.
  unfold process_pdf, convert.
  destruct (_validate_input_file self w p) as [v tr].
  simpl in Hvalid, Hsilent. subst v tr.
  rewrite Hengine. io_unfold. simpl. rewrite Hstatus. reflexivity.
Qed.

(** C4: when the engine is reached and answers with a status that is not
    [SUCCESS], [process_pdf] returns [None], the engine has been called
    once, and no output file has been written or attempted. *)
Theorem not_success_returns_none_writes_nothing (self : Processor)
    (w : World) (p : Path) (r : ConversionResult) :
  (_validate_input_file self w p).1 = Ret true →
  engine w (converter self) (path_str p) = Ret r →
  String.eqb (status_name (status r)) "SUCCESS" = false →
  (process_pdf self w p).1 = Ret None
  ∧ conversions (process_pdf self w p).2 = [path_str p]
  ∧ writes (process_pdf self w p).2 = [].
Proof.
  intros Hvalid Hengine Hstatus.
  by rewrite (process_pdf_not_success _ _ _ _ Hvalid Hengine Hstatus).
Qed.

Lemma not_success_witness :
  (process_pdf default_processor (sample_world 1000 PARTIAL_SUCCESS [])
     sample_path).1 = Ret None
  ∧ conversions (process_pdf default_processor
       (sample_world 1000 PARTIAL_SUCCESS []) sample_path).2 = ["in/doc.PDF"]
  ∧ writes (process_pdf default_processor
       (sample_world 1000 PARTIAL_SUCCESS []) sample_path).2 = [].
Proof.
  apply (not_success_returns_none_writes_nothing default_processor
    (sample_world 1000 PARTIAL_SUCCESS []) sample_path
    (mkResult PARTIAL_SUCCESS sample_document)); reflexivity.
Defined.

(** ** The size ceiling *)

Lemma Qle_bool_scaled (n : Z) (q : Q) :
  Qle_bool (inject_Z n / inject_Z (1024 * 1024)) q = true
  ↔ (inject_Z n <= q * inject_Z (1024 * 1024))%Q.
Proof.
  assert (inject_Z n / inject_Z (1024 * 1024) * inject_Z (1024 * 1024)
          == inject_Z n)%Q as Hcancel by (field; discriminate).
  rewrite Qle_bool_iff. split; intros H.
  - apply (Qmult_le_r _ _ (inject_Z (1024 * 1024))) in H; [|reflexivity].
    by rewrite Hcancel in H.
  - apply (Qmult_le_r _ _ (inject_Z (1024 * 1024))); [reflexivity|].
    by rewrite Hcancel.
Qed.

(** C6, as amended: for a file that exists, whose extension is supported
    and whose size is below 2^53 bytes, a size of exactly
    [max_file_size_mb × 1024 × 1024] bytes passes the validation, and a
    size of one byte more is rejected with the file-too-large message.
    Up to 2^53 bytes the float the program computes is the exact
    quotient. *)
Theorem size_ceiling_boundary (self : Processor) (w w' : World) (p : Path)
    (exts : list string) (limit : pyval) (q : Q) (size : Z) :
  file_config self !! "supported_extensions" = Some (PStrList exts) →
  file_config self !! "max_file_size_mb" = Some limit →
  as_number limit = Some q →
  lower (suffix p) ∈ exts →
  (size < 2 ^ 53)%Z →
  (inject_Z size == q * inject_Z (1024 * 1024))%Q →
  st_size w !! path_str p = Some size →
  st_size w' !! path_str p = Some (size + 1)%Z →
  _validate_input_file self w p = (Ret true, [])
  ∧ _validate_input_file self w' p =
      (Ret false,
       [EvLog ERROR
          (MsgFileTooLarge (inject_Z (size + 1) / inject_Z (1024 * 1024))
             limit)]).
Proof.
  intros Hexts Hlimit Hq Hext Hsmall Hsize Hw Hw'.
  rewrite !(validate_checks _ _ _ _ _ _ Hexts Hlimit Hq), Hw, Hw'.
  rewrite (bool_decide_eq_true_2 _ Hext).
  rewrite (truediv_mib_exact size), (truediv_mib_exact (size + 1)) by lia.
  assert (Qle_bool (inject_Z size / inject_Z (1024 * 1024)) q = true) as ->.
  { apply Qle_bool_scaled. rewrite Hsize. apply Qle_refl. }
  assert (Qle_bool (inject_Z (size + 1) / inject_Z (1024 * 1024)) q = false)
    as ->; [|done].
  apply not_true_iff_false. rewrite Qle_bool_scaled, <- Hsize.
  rewrite <- Zle_Qle. lia.
Qed.

Lemma size_ceiling_witness :
  _validate_input_file default_processor
    (sample_world 104857600 SUCCESS []) sample_path = (Ret true, [])
  ∧ _validate_input_file default_processor
      (sample_world 104857601 SUCCESS []) sample_path =
      (Ret false,
       [EvLog ERROR
          (MsgFileTooLarge
             (inject_Z (104857600 + 1) / inject_Z (1024 * 1024))
             (PInt 100))]).
Proof.
  apply (size_ceiling_boundary default_processor
    (sample_world 104857600 SUCCESS []) (sample_world 104857601 SUCCESS [])
    sample_path [".pdf"] (PInt 100) (inject_Z 100) 104857600);
    try reflexivity.
  vm_compute. apply list_elem_of_here.
Defined.

(** C6: the constructor is given a ceiling of 2^33 megabytes, which is
    2^53 bytes.  A file of 2^53 + 1 bytes is one byte larger than the
    ceiling; the float nearest to its size in megabytes is 2^33, which
    is not greater than the ceiling, and the file passes the
    validation. *)
Lemma size_ceiling_byte_over_accepted :
  __init__ sample_env (Some huge_ceiling_override)
    = (Ret huge_ceiling_processor,
       [EvMkdir "output"; EvLog INFO MsgInitialized])
  ∧ file_config huge_ceiling_processor !! "max_file_size_mb"
    = Some (PInt 8589934592)
  ∧ (8589934592 * 1024 * 1024 + 1 = 9007199254740993)%Z
  ∧ (truediv_mib 9007199254740993 == inject_Z 8589934592)%Q
  ∧ _validate_input_file huge_ceiling_processor
      (sample_world 9007199254740992 SUCCESS []) sample_path
    = (Ret true, [])
  ∧ _validate_input_file huge_ceiling_processor
      (sample_world 9007199254740993 SUCCESS []) sample_path
    = (Ret true, []).
Proof. repeat split. Qed.

(** ** The output writer *)

Lemma image_mode_hashable (v : pyval) :
  (∀ l, v ≠ PStrList l) → ∃ m, image_mode_map_get v = (Ret m, []).
Proof.
  intros Hv. destruct v as [| | |s|l]; simpl; eauto.
  - repeat case_match; eauto.
  - by destruct (Hv l).
Qed.

Lemma output_ready_inv (self : Processor) :
  output_ready self = true →
  ∃ sj ji je im sm sh st ss m,
    output_config self !! "save_json" = Some sj
    ∧ output_config self !! "json_indent" = Some ji
    ∧ output_config self !! "json_ensure_ascii" = Some je
    ∧ output_config self !! "image_mode" = Some im
    ∧ output_config self !! "save_markdown" = Some sm
    ∧ output_config self !! "save_html" = Some sh
    ∧ output_config self !! "save_text" = Some st
    ∧ output_config self !! "save_summary" = Some ss
    ∧ image_mode_map_get im = (Ret m, []).
Proof.
  unfold output_ready, has_key. simpl.
  intros [Hkeys Hmode]%andb_prop.
  repeat (apply andb_prop in Hkeys as [?%bool_decide_eq_true Hkeys]).
  repeat match goal with Hk : is_Some _ |- _ => destruct Hk as [? Hk] end.
  match goal with
  | Him : output_config self !! "image_mode" = Some ?im |- _ =>
      rewrite Him in Hmode; destruct (image_mode_hashable im) as [m Hm];
      [by intros l ->|]
  end.
  do 9 eexists. repeat split; eassumption.
Qed.

Arguments image_mode_map_get : simpl never.

(** C2, as amended: the writer handles the enabled formats in the fixed
    order JSON, Markdown, HTML, text, summary, and stops at the first one
    whose write fails: the formats before it are written, the ones after
    it are not attempted, and the writer raises.  It returns normally
    exactly when no enabled format fails. *)
Theorem writer_stops_at_first_failure (self : Processor) (w : World)
    (doc : Document) (p : Path) (data : Payload) :
  output_ready self = true →
  writes (_save_all_outputs self w doc p data).2
    = attempts (write_fails w) (List.filter (enabled self) all_formats)
  ∧ ((_save_all_outputs self w doc p data).1 = Ret tt
     ↔ forallb (λ f, negb (write_fails w f))
         (List.filter (enabled self) all_formats) = true).
Proof.
  intros (sj & ji & je & im & sm & sh & st & ss & m &
          Hsj & Hji & Hje & Him & Hsm & Hsh & Hst & Hss & Hm)%output_ready_inv.
  unfold all_formats, enabled, flag_key. simpl List.filter.
  rewrite !lookup_total_alt, Hsj, Hsm, Hsh, Hst, Hss. simpl default.
  unfold _save_all_outputs, _save_summary_report, write_artifact, getitem.
  rewrite Hsj, Hji, Hje, Him, Hsm, Hsh, Hst, Hss. io_unfold.
  destruct (truthy sj); simpl;
    [destruct (write_fails w Json); simpl;
     [by (split; [|split; congruence])|]|];
    rewrite Hm; simpl;
    (destruct (truthy sm); simpl;
     [destruct (write_fails w Markdown); simpl;
      [by (split; [|split; congruence])|]|]);
    (destruct (truthy sh); simpl;
     [destruct (write_fails w Html); simpl;
      [by (split; [|split; congruence])|]|]);
    (destruct (truthy st); simpl;
     [destruct (write_fails w PlainText); simpl;
      [by (split; [|split; congruence])|]|]);
    (destruct (truthy ss); simpl;
     [destruct (write_fails w Summary); simpl|]);
    by (split; [|split; congruence]).
Qed.

Lemma writer_stops_witness :
  writes (_save_all_outputs default_processor
            (sample_world 1000 SUCCESS [Markdown]) sample_document sample_path
            sample_payload).2
  = [(Json, true); (Markdown, false)].
Proof.
  exact (proj1 (writer_stops_at_first_failure default_processor
    (sample_world 1000 SUCCESS [Markdown]) sample_document sample_path
    sample_payload eq_refl)).
Defined.

(** C2: the processor of the defaults has the five formats enabled.
    With a Markdown export that fails, the HTML, text and summary
    outputs are enabled and would not fail, yet none of them is
    attempted, neither by the writer nor by [process_pdf], which returns
    [None]. *)
Lemma writer_failure_not_isolated :
  __init__ sample_env None
    = (Ret default_processor, [EvMkdir "output"; EvLog INFO MsgInitialized])
  ∧ enabled default_processor Html = true
  ∧ enabled default_processor PlainText = true
  ∧ enabled default_processor Summary = true
  ∧ write_fails (sample_world 1000 SUCCESS [Markdown]) Html = false
  ∧ attempted Html
      (_save_all_outputs default_processor
         (sample_world 1000 SUCCESS [Markdown]) sample_document sample_path
         sample_payload).2 = false
  ∧ process_pdf default_processor (sample_world 1000 SUCCESS [Markdown])
      sample_path
    = (Ret None,
       [EvLog INFO (MsgStarting "doc.PDF"); EvConvert "in/doc.PDF";
        EvWrite Json "output/doc.json" true;
        EvLog INFO (MsgSaved Json "output/doc.json");
        EvWrite Markdown "output/doc.md" false;
        EvLog ERROR (MsgProcessingFailed OSError)]).
Proof. repeat split. Qed.

(** ** The condition in front of the writer *)

(** The writer is called exactly when one of the four flags
    [save_json], [save_markdown], [save_html], [save_text] is true. *)
Lemma save_gate (self : Processor) (w : World) (p : Path)
    (r : ConversionResult) (data : Payload) (tr : list event)
    (sj sm sh st : pyval) :
  (_validate_input_file self w p).1 = Ret true →
  engine w (converter self) (path_str p) = Ret r →
  String.eqb (status_name (status r)) "SUCCESS" = true →
  _extract_comprehensive_data self w (document r) p (elapsed w)
    = (Ret data, tr) →
  output_config self !! "save_json" = Some sj →
  output_config self !! "save_markdown" = Some sm →
  output_config self !! "save_html" = Some sh →
  output_config self !! "save_text" = Some st →
  writes (process_pdf self w p).2 =
    writes tr ++
    if any [sj; sm; sh; st]
    then writes (_save_all_outputs self w (document r) p data).2
    else [].
Proof.
  intros Hvalid Hengine Hstatus Hdata Hsj Hsm Hsh Hst.
  pose proof (validate_true_silent _ _ _ Hvalid) as Hsilent.
  unfold process_pdf, convert, getitem.
  destruct (_validate_input_file self w p) as [v tr0].
  simpl in Hvalid, Hsilent. subst v tr0.
  rewrite Hengine, Hsj, Hsm, Hsh, Hst. io_unfold.
  generalize (any [sj; sm; sh; st]). intros go. simpl.
  rewrite Hstatus. simpl. rewrite Hdata.
  destruct go; simpl.
  - destruct (_save_all_outputs self w (document r) p data) as [[[]|e] tr'];
      simpl; rewrite !writes_app; simpl; by rewrite ?app_nil_r.
  - rewrite !writes_app. simpl. by rewrite ?app_nil_r.
Qed.

(** C1 at the failing input: the constructor is given an override that
    leaves only [save_summary] set.  The conversion succeeds and the
    payload is returned, but the trace holds no write: the report is not
    produced, although the writer, had it been called, would have
    written it. *)
Theorem summary_only_report_not_written :
  __init__ sample_env (Some summary_only_override)
    = (Ret summary_only_processor,
       [EvMkdir "output"; EvLog INFO MsgInitialized])
  ∧ enabled summary_only_processor Summary = true
  ∧ process_pdf summary_only_processor (sample_world 1000 SUCCESS [])
      sample_path
    = (Ret (Some sample_payload),
       [EvLog INFO (MsgStarting "doc.PDF"); EvConvert "in/doc.PDF";
        EvLog INFO (MsgProcessedIn (5 # 4))])
  ∧ writes (_save_all_outputs summary_only_processor
              (sample_world 1000 SUCCESS []) sample_document sample_path
              sample_payload).2
    = [(Summary, true)].
Proof. repeat split. Qed.

(** ** The configuration merge *)

Lemma setup_logging_default (env : Env) :
  _setup_logging env =
    if log_file_ok env "processing.log" then (Ret default_logger, [])
    else (Raise OSError, []).
Proof.
  destruct env as [docling acc mk open_log accepts]. vm_compute.
  by destruct (open_log _).
Qed.

Lemma update_lookup (d o : gmap string pyval) (k : string) :
  update d o !! k = match o !! k with Some v => Some v | None => d !! k end.
Proof.
  unfold update. rewrite lookup_union.
  destruct (o !! k), (d !! k); reflexivity.
Qed.

Lemma update_empty (d : gmap string pyval) : update d ∅ = d.
Proof. unfold update. apply (left_id_L ∅ (∪)). Qed.

(** The three dictionaries the constructor leaves in the processor. *)
Lemma init_configs (env : Env)
    (ov : option (gmap string (gmap string pyval))) (self : Processor)
    (tr : list event) :
  __init__ env ov = (Ret self, tr) →
  processing_config self
    = update PROCESSING_CONFIG (override_group ov "processing")
  ∧ output_config self = update OUTPUT_CONFIG (override_group ov "output")
  ∧ file_config self = update FILE_CONFIG (override_group ov "file")
  ∧ logger self = default_logger.
Proof.
  unfold __init__. destruct (docling_available env); [|discriminate].
  cbv beta iota delta [negb].
  assert (∃ pc oc fc,
    match ov with
    | Some o =>
        if bool_decide (o ≠ ∅)
        then (update PROCESSING_CONFIG (get_group o "processing"),
              update OUTPUT_CONFIG (get_group o "output"),
              update FILE_CONFIG (get_group o "file"))
        else (PROCESSING_CONFIG, OUTPUT_CONFIG, FILE_CONFIG)
    | None => (PROCESSING_CONFIG, OUTPUT_CONFIG, FILE_CONFIG)
    end = (pc, oc, fc)
    ∧ pc = update PROCESSING_CONFIG (override_group ov "processing")
    ∧ oc = update OUTPUT_CONFIG (override_group ov "output")
    ∧ fc = update FILE_CONFIG (override_group ov "file"))
    as (pc & oc & fc & -> & Hpc & Hoc & Hfc).
  { destruct ov as [o|]; simpl override_group.
    - case_bool_decide as Ho; do 3 eexists; (split; [reflexivity|]).
      + done.
      + assert (o = ∅) as -> by (by destruct (decide (o = ∅))).
        unfold get_group. rewrite lookup_empty. simpl.
        by rewrite !update_empty.
    - do 3 eexists. split; [reflexivity|]. by rewrite !update_empty. }
  rewrite setup_logging_default.
  destruct (log_file_ok env "processing.log"); [|discriminate].
  rewrite bind_Ret.
  unfold getitem. destruct (oc !! "output_directory") as [dir|];
    [|discriminate].
  destruct dir as [| | |dir|]; try discriminate. unfold new_path.
  io_unfold. simpl.
  destruct (mkdir_ok env (path_spelling dir)); [|discriminate]. simpl.
  destruct (_setup_converter env pc) as [[opts|e] tr2]; [|discriminate].
  intros [= <- _]. simpl. auto.
Qed.

(** Every key of the defaults is a key of the processor's dictionaries:
    the lookups the methods make in them do not raise [KeyError]. *)
Lemma init_keeps_defaults (env : Env)
    (ov : option (gmap string (gmap string pyval))) (self : Processor)
    (tr : list event) (k : string) :
  __init__ env ov = (Ret self, tr) →
  (is_Some (PROCESSING_CONFIG !! k) → is_Some (processing_config self !! k))
  ∧ (is_Some (OUTPUT_CONFIG !! k) → is_Some (output_config self !! k))
  ∧ (is_Some (FILE_CONFIG !! k) → is_Some (file_config self !! k)).
Proof.
  intros (-> & -> & -> & _)%init_configs.
  rewrite !update_lookup. repeat split; intros Hk; by case_match.
Qed.

(** C3, as amended: the constructor merges the three groups processing,
    output and file, each one by a shallow merge: a key of the override
    replaces the default of its group (or is added to it), every other
    key keeps its default.  The logging group is not merged: the logger
    is the one of the defaults whatever the override holds. *)
Theorem merge_covers_three_groups (env : Env)
    (ov : option (gmap string (gmap string pyval))) (self : Processor)
    (tr : list event) :
  __init__ env ov = (Ret self, tr) →
  (∀ k, processing_config self !! k =
        match override_group ov "processing" !! k with
        | Some v => Some v
        | None => PROCESSING_CONFIG !! k
        end)
  ∧ (∀ k, output_config self !! k =
          match override_group ov "output" !! k with
          | Some v => Some v
          | None => OUTPUT_CONFIG !! k
          end)
  ∧ (∀ k, file_config self !! k =
          match override_group ov "file" !! k with
          | Some v => Some v
          | None => FILE_CONFIG !! k
          end)
  ∧ logger self = default_logger.
Proof.
  intros (-> & -> & -> & ->)%init_configs.
  repeat split; intros k; apply update_lookup.
Qed.

Lemma merge_witness :
  processing_config summary_only_processor !! "enable_ocr"
    = Some (PBool true)
  ∧ output_config summary_only_processor !! "save_json" = Some (PBool false)
  ∧ output_config summary_only_processor !! "save_summary"
    = Some (PBool true)
  ∧ file_config summary_only_processor !! "max_file_size_mb"
    = Some (PInt 100)
  ∧ logger summary_only_processor = default_logger.
Proof.
  destruct (merge_covers_three_groups sample_env (Some summary_only_override)
    summary_only_processor [EvMkdir "output"; EvLog INFO MsgInitialized])
    as (Hp & Ho & Hf & Hl); [reflexivity|].
  exact (conj (Hp "enable_ocr") (conj (Ho "save_json")
    (conj (Ho "save_summary") (conj (Hf "max_file_size_mb") Hl)))).
Defined.

(** C3: an override of the logging level to [DEBUG] (level 10 of the
    logging module) is accepted by the constructor, which builds the
    processor of the defaults: its logger has the level of [INFO], 20. *)
Lemma logging_override_ignored :
  get_group logging_override "logging" !! "level" = Some (PStr "DEBUG")
  ∧ getattr_logging (upper "DEBUG") = (Ret 10%Z, [])
  ∧ __init__ sample_env (Some logging_override)
    = (Ret default_processor,
       [EvMkdir "output"; EvLog INFO MsgInitialized])
  ∧ log_level (logger default_processor) = 20%Z.
Proof. repeat split. Qed.

(** ** The extraction summary *)

Lemma table_summaries_length (ts : list Table) (i : Z) :
  length (table_summaries i ts) = length ts.
Proof.
  revert i. induction ts as [|t ts IH]; intros i; simpl; [done|].
  by rewrite IH.
Qed.

Lemma table_summaries_lookup (ts : list Table) (i : Z) (k : nat)
    (t : Table) :
  ts !! k = Some t →
  table_summaries i ts !! k =
    Some match export_to_dataframe t with
         | Some (nrows, ncols) =>
             mkTableSummary (i + Z.of_nat k + 1) (PInt nrows) (PInt ncols)
               (PBool true)
         | None =>
             mkTableSummary (i + Z.of_nat k + 1) (PStr "unknown")
               (PStr "unknown") (PStr "unknown")
         end.
Proof.
  revert i k. induction ts as [|t' ts IH]; intros i k Hk; [done|].
  destruct k as [|k].
  - simpl in *. injection Hk as ->. rewrite Z.add_0_r. reflexivity.
  - change (table_summaries i (t' :: ts) !! S k)
      with (table_summaries (i + 1) ts !! k).
    rewrite (IH (i + 1)%Z k Hk).
    replace (i + 1 + Z.of_nat k + 1)%Z with (i + Z.of_nat (S k) + 1)%Z
      by lia.
    reflexivity.
Qed.

Lemma extract_payload (self : Processor) (w : World) (doc : Document)
    (p : Path) (t : Q) (data : Payload) (tr : list event) :
  _extract_comprehensive_data self w doc p t = (Ret data, tr) →
  num_tables (statistics data) = Z.of_nat (length (tables doc))
  ∧ extraction_summary data = _generate_extraction_summary doc.
Proof.
  unfold _extract_comprehensive_data, stat_size, getitem. io_unfold.
  io_cases; intros [= <- _]; auto.
Qed.

(** The payload is built whenever the source file can be read and the
    four options of the configuration snapshot are present. *)
Lemma extract_returns (self : Processor) (w : World) (doc : Document)
    (p : Path) (t : Q) (size : Z) (ocr tabs img classif : pyval) :
  st_size w !! path_str p = Some size →
  processing_config self !! "enable_ocr" = Some ocr →
  processing_config self !! "enable_tables" = Some tabs →
  processing_config self !! "generate_picture_images" = Some img →
  processing_config self !! "enable_picture_classification" = Some classif →
  ∃ data, _extract_comprehensive_data self w doc p t = (Ret data, []).
Proof.
  intros Hsize Hocr Htabs Himg Hclassif.
  unfold _extract_comprehensive_data, stat_size, getitem.
  rewrite Hsize, Hocr, Htabs, Himg, Hclassif. io_unfold. simpl.
  eexists. reflexivity.
Qed.

(** C7: for a converted document with [n] tables, the payload's
    extraction summary holds [n] table entries, the entry at position
    [k] (from 0) has [table_id = k + 1]; it records the row and column
    counts and [has_headers = True] when the export of that table
    succeeds, and the string ["unknown"] in the three fields when the
    export raises; [statistics.num_tables] is [n] in both cases. *)
Theorem table_entries_one_per_table (self : Processor) (w : World)
    (doc : Document) (p : Path) (t : Q) (data : Payload)
    (tr : list event) :
  _extract_comprehensive_data self w doc p t = (Ret data, tr) →
  length (summary_tables (extraction_summary data)) = length (tables doc)
  ∧ num_tables (statistics data) = Z.of_nat (length (tables doc))
  ∧ ∀ (k : nat) (table : Table), tables doc !! k = Some table →
      summary_tables (extraction_summary data) !! k =
        Some match export_to_dataframe table with
             | Some (nrows, ncols) =>
                 mkTableSummary (Z.of_nat k + 1) (PInt nrows) (PInt ncols)
                   (PBool true)
             | None =>
                 mkTableSummary (Z.of_nat k + 1) (PStr "unknown")
                   (PStr "unknown") (PStr "unknown")
             end.
Proof.
  intros [Hn ->]%extract_payload. simpl. split; [|split; [done|]].
  - apply table_summaries_length.
  - intros k table Hk. by rewrite (table_summaries_lookup _ 0 k table Hk).
Qed.

Lemma table_entries_witness :
  length (summary_tables (extraction_summary sample_payload)) = 3
  ∧ num_tables (statistics sample_payload) = 3%Z
  ∧ summary_tables (extraction_summary sample_payload) !! 1
    = Some (mkTableSummary 2 (PStr "unknown") (PStr "unknown")
              (PStr "unknown"))
  ∧ summary_tables (extraction_summary sample_payload) !! 2
    = Some (mkTableSummary 3 (PInt 7) (PInt 2) (PBool true)).
Proof.
  destruct (table_entries_one_per_table default_processor
    (sample_world 1000 SUCCESS []) sample_document sample_path (5 # 4)
    sample_payload []) as (Hlen & Hnum & Hentry); [reflexivity|].
  exact (conj Hlen (conj Hnum
    (conj (Hentry 1 (mkTable None) eq_refl)
       (Hentry 2 (mkTable (Some (7, 2)%Z)) eq_refl)))).
Defined.

(** C8: the text preview is the first 500 characters of the strict-text
    export followed by the three-character marker ["..."], whether or
    not anything was cut; it is never longer than 503 characters, and
    for a document with an empty export it is the marker alone. *)
Theorem text_preview_bounded (doc : Document) :
  text_preview (_generate_extraction_summary doc)
    = take 500 (export_to_markdown_strict doc) ++ text_of_string "..."
  ∧ length (text_preview (_generate_extraction_summary doc)) ≤ 503
  ∧ ∀ n ts ps txs d,
      text_preview
        (_generate_extraction_summary (mkDocument n ts ps txs [] d))
      = text_of_string "...".
Proof.
  split; [reflexivity|]. split; [|reflexivity].
  simpl. rewrite length_app, length_take.
  change (length ellipsis) with 3. lia.
Qed.

(** ** The pipeline configuration *)

Lemma device_map_get_str (s : string) :
  device_map_get (PStr s)
  = (Ret (if String.eqb s "auto" then AUTO
          else if String.eqb s "cpu" then CPU
          else if String.eqb s "cuda" then CUDA
          else AUTO), []).
Proof.
  unfold device_map_get.
  destruct (String.eqb s "auto"), (String.eqb s "cpu"),
    (String.eqb s "cuda"); reflexivity.
Qed.

Arguments device_map_get : simpl never.

(** C9: in the pipeline configuration the constructor builds, cell
    matching is assigned exactly when table extraction is enabled, the
    image scale exactly when page images are generated, and when the
    accelerator options are available a device given by a string is
    [cpu] for ["cpu"], [cuda] for ["cuda"], and [auto] for ["auto"] and
    for every other string. *)
Theorem converter_conditional_options (env : Env)
    (cfg : gmap string pyval) (opts : PdfPipelineOptions)
    (tr : list event) :
  _setup_converter env cfg = (Ret opts, tr) →
  do_table_structure opts = cfg !!! "enable_tables"
  ∧ do_cell_matching opts
    = (if truthy (cfg !!! "enable_tables")
       then Some (cfg !!! "table_cell_matching") else None)
  ∧ generate_page_images opts = cfg !!! "generate_page_images"
  ∧ images_scale opts
    = (if truthy (cfg !!! "generate_page_images")
       then Some (cfg !!! "image_resolution_scale") else None)
  ∧ ∀ s, accelerator_available env = true →
      cfg !! "device" = Some (PStr s) →
      accelerator_options opts
      = Some (mkAccelerator (cfg !!! "num_threads")
                (if String.eqb s "auto" then AUTO
                 else if String.eqb s "cpu" then CPU
                 else if String.eqb s "cuda" then CUDA
                 else AUTO)).
Proof.
  unfold _setup_converter, getitem. rewrite !lookup_total_alt.
  destruct (cfg !! "enable_ocr"); [|discriminate].
  destruct (cfg !! "enable_tables") as [tabs|]; [|discriminate].
  io_unfold. simpl.
  destruct (truthy tabs);
    [destruct (cfg !! "table_cell_matching"); [|discriminate]|];
    simpl;
    (destruct (cfg !! "generate_page_images") as [pages|]; [|discriminate]);
    (destruct (cfg !! "generate_picture_images"); [|discriminate]);
    (destruct (cfg !! "enable_picture_classification"); [|discriminate]);
    simpl;
    (destruct (truthy pages);
     [destruct (cfg !! "image_resolution_scale"); [|discriminate]|]);
    simpl;
    (destruct (cfg !! "enable_code_enrichment"); [|discriminate]);
    (destruct (cfg !! "enable_formula_enrichment"); [|discriminate]);
    simpl;
    (destruct (accelerator_available env); simpl;
     [destruct (cfg !! "device") as [dev|]; [|discriminate]; simpl;
      destruct (device_map_get dev) as [[device|e] tr'] eqn:Hdev;
      [|discriminate]; simpl;
      (destruct (cfg !! "num_threads") as [threads|]; [|discriminate]);
      simpl;
      (destruct (accelerator_options_ok env threads device);
       [|discriminate]); simpl
     |]);
    intros [= <- _]; simpl; repeat split;
    intros s Havail Hs; try discriminate;
    injection Hs as ->; rewrite device_map_get_str in Hdev;
    by injection Hdev as <- _.
Qed.

Lemma converter_witness :
  do_cell_matching plain_options = None
  ∧ images_scale plain_options = None
  ∧ accelerator_options plain_options = Some (mkAccelerator (PInt 4) AUTO).
Proof.
  destruct (converter_conditional_options sample_env
    (update PROCESSING_CONFIG (get_group plain_override "processing"))
    plain_options []) as (_ & Hcell & _ & Hscale & Hdev); [reflexivity|].
  exact (conj Hcell (conj Hscale (Hdev "tpu" eq_refl eq_refl))).
Defined.

(** ** The minimal variant *)

Lemma minimal_save_outputs_no_engine (self : Minimal.Processor) (w : World)
    (doc : Document) (p : Path) (data : Minimal.DocumentData) :
  conversions (Minimal._save_outputs self w doc p data).2 = [].
Proof.
  unfold Minimal._save_outputs, write_artifact. io_unfold.
  destruct (write_fails w Json); simpl; [done|].
  destruct (write_fails w Markdown); simpl; [done|].
  destruct (write_fails w Html); simpl; [done|].
  destruct (write_fails w Summary); simpl; done.
Qed.

(** C10: in the minimal variant, an existing file whose suffix
    lower-cases to [.pdf] is handed to the engine, once, whatever its
    size; giving the file any other size changes nothing in the run. *)
Theorem minimal_no_size_check (self : Minimal.Processor) (w : World)
    (p : Path) (size : Z) :
  st_size w !! path_str p = Some size →
  lower (suffix p) = ".pdf" →
  conversions (Minimal.process_pdf self w p).2 = [path_str p]
  ∧ ∀ size', Minimal.process_pdf self (resize w (path_str p) size') p
             = Minimal.process_pdf self w p.
Proof.
  intros Hsize Hext. split.
  - unfold Minimal.process_pdf, path_exists, convert. rewrite Hsize, Hext.
    io_unfold. simpl.
    destruct (engine w (Minimal.pipeline_options self) (path_str p))
      as [r|e]; simpl; [|done].
    destruct (String.eqb (status_name (status r)) "SUCCESS"); simpl; [|done].
    match goal with
    | |- context [Minimal._save_outputs ?s ?w ?d ?p ?dd] =>
        pose proof (minimal_save_outputs_no_engine s w d p dd) as Hsave;
        destruct (Minimal._save_outputs s w d p dd) as [[[]|e] tr]
    end; simpl in *; rewrite ?conversions_app, Hsave; done.
  - intros size'. unfold Minimal.process_pdf, path_exists, resize.
    simpl st_size. rewrite lookup_insert_eq, Hsize. reflexivity.
Qed.

Lemma minimal_witness :
  conversions (Minimal.process_pdf minimal_processor
    (sample_world 1000000000000 SUCCESS []) sample_path).2 = ["in/doc.PDF"].
Proof.
  exact (proj1 (minimal_no_size_check minimal_processor
    (sample_world 1000000000000 SUCCESS []) sample_path 1000000000000
    eq_refl eq_refl)).
Defined.

(** * Further properties *)

(** ** What [process_pdf] catches and what it lets through *)

Lemma bind_fst {A B} (m : IO A) (f : A → IO B) :
  (m ≫= f).1 = match m.1 with Ret a => (f a).1 | Raise e => Raise e end.
Proof.
  unfold mbind, IO_bind. destruct m as [[a|e] tr]; simpl; [|done].
  by destruct (f a).
Qed.

Lemma try_except_returns {A} (body : IO A) (handler : exn → IO A) :
  (∀ e, ∃ a, (handler e).1 = Ret a) →
  ∃ a, (try_except body handler).1 = Ret a.
Proof.
  intros Hh. unfold try_except. destruct body as [[a|e] tr]; simpl; [eauto|].
  destruct (Hh e) as [a Ha]. destruct (handler e). simpl in *. eauto.
Qed.

(** Once the validation has returned, whatever its verdict,
    [process_pdf] returns: a failure of the engine, of the payload
    construction or of a write never leaves it as an exception. *)
Theorem process_pdf_returns_after_validation (self : Processor) (w : World)
    (p : Path) (verdict : bool) :
  (_validate_input_file self w p).1 = Ret verdict →
  ∃ result, (process_pdf self w p).1 = Ret result.
Proof.
  intros Hvalid. unfold process_pdf. rewrite bind_fst, Hvalid.
  destruct verdict; cbn [negb]; [|by eexists].
  rewrite bind_fst. cbn [log emit fst].
  apply try_except_returns. intros e. by eexists.
Qed.

Lemma process_pdf_returns_witness :
  ∃ result,
    (process_pdf default_processor (sample_world 1000 SUCCESS [Json])
       sample_path).1 = Ret result.
Proof.
  apply (process_pdf_returns_after_validation default_processor
    (sample_world 1000 SUCCESS [Json]) sample_path true).
  reflexivity.
Defined.

(** An exception of the engine is logged and turned into [None]; nothing
    is written. *)
Theorem engine_exception_gives_none (self : Processor) (w : World)
    (p : Path) (e : exn) :
  (_validate_input_file self w p).1 = Ret true →
  engine w (converter self) (path_str p) = Raise e →
  process_pdf self w p =
    (Ret None,
     [EvLog INFO (MsgStarting (name p));
      EvConvert (path_str p);
      EvLog ERROR (MsgProcessingFailed e)]).
Proof.
  intros Hvalid Hengine.
  pose proof (validate_true_silent _ _ _ Hvalid) as Hsilent.
  unfold process_pdf, convert.
  destruct (_validate_input_file self w p) as [v tr].
  simpl in Hvalid, Hsilent. subst v tr.
  rewrite Hengine. io_unfold. reflexivity.
Qed.

Lemma engine_exception_witness :
  process_pdf default_processor raising_world sample_path =
    (Ret None,
     [EvLog INFO (MsgStarting "doc.PDF");
      EvConvert "in/doc.PDF";
      EvLog ERROR (MsgProcessingFailed EngineError)]).
Proof.
  apply (engine_exception_gives_none default_processor raising_world
    sample_path EngineError); reflexivity.
Defined.

(** The validation is made outside the [try] block: with a size ceiling
    that is not a number, an existing file of a supported type makes
    [process_pdf] raise [TypeError]; the engine is not called. *)
Theorem non_numeric_ceiling_raises (self : Processor) (w : World)
    (p : Path) (exts : list string) (limit : pyval) (size : Z) :
  file_config self !! "supported_extensions" = Some (PStrList exts) →
  file_config self !! "max_file_size_mb" = Some limit →
  as_number limit = None →
  st_size w !! path_str p = Some size →
  lower (suffix p) ∈ exts →
  process_pdf self w p = (Raise TypeError, []).
Proof.
  intros Hexts Hlimit Hnum Hsize Hext.
  unfold process_pdf, _validate_input_file, path_exists, stat_size, getitem,
    py_in, py_gt.
  rewrite Hsize, Hexts, Hlimit. io_unfold. simpl.
  rewrite (bool_decide_eq_true_2 _ Hext). simpl. rewrite Hnum. reflexivity.
Qed.

Lemma non_numeric_ceiling_witness :
  process_pdf string_limit_processor (sample_world 1000 SUCCESS [])
    sample_path = (Raise TypeError, []).
Proof.
  apply (non_numeric_ceiling_raises string_limit_processor
    (sample_world 1000 SUCCESS []) sample_path [".pdf"] (PStr "100") 1000);
    try reflexivity.
  vm_compute. apply list_elem_of_here.
Defined.

(** ** Extensions configured as one string *)

Lemma contains_nil {A} `{EqDecision A} (hay : list A) : contains [] hay = true.
Proof. by destruct hay. Qed.

(** When [supported_extensions] is a string and not a list, the test
    [in] is a substring test: a file whose suffix, lower-cased, occurs
    inside that string is of a supported type.  A file without any
    suffix is therefore always accepted by the second check. *)
Theorem string_extensions_substring_test (self : Processor) (w : World)
    (p : Path) (s : string) (limit : pyval) (q : Q) (size : Z) :
  file_config self !! "supported_extensions" = Some (PStr s) →
  file_config self !! "max_file_size_mb" = Some limit →
  as_number limit = Some q →
  st_size w !! path_str p = Some size →
  Qle_bool (truediv_mib size) q = true →
  _validate_input_file self w p =
    (if contains (String.list_ascii_of_string (lower (suffix p)))
          (String.list_ascii_of_string s)
     then (Ret true, [])
     else (Ret false, [EvLog ERROR (MsgUnsupportedType (suffix p))]))
  ∧ (suffix p = "" → _validate_input_file self w p = (Ret true, [])).
Proof.
  intros Hexts Hlimit Hq Hsize Hfits.
  assert (_validate_input_file self w p =
    (if contains (String.list_ascii_of_string (lower (suffix p)))
          (String.list_ascii_of_string s)
     then (Ret true, [])
     else (Ret false, [EvLog ERROR (MsgUnsupportedType (suffix p))])))
    as Hv.
  { unfold _validate_input_file, path_exists, stat_size, getitem, py_in,
      py_gt.
    rewrite Hsize, Hexts, Hlimit. io_unfold. simpl.
    destruct (contains _ _); simpl; [|reflexivity].
    rewrite Hq. simpl. by rewrite Hfits. }
  split; [done|]. intros Hbare. rewrite Hv, Hbare. simpl.
  by rewrite contains_nil.
Qed.

Lemma string_extensions_witness :
  _validate_input_file string_extensions_processor
    {| st_size := {[ "in/README" := 1000%Z ]};
       stat_error := λ _, false;
       engine := λ _ _, Raise EngineError;
       write_fails := λ _, false;
       elapsed := 1; now := "" |}
    bare_path = (Ret true, []).
Proof.
  refine (proj2 (string_extensions_substring_test
    string_extensions_processor _ bare_path ".pdf" (PInt 100) (inject_Z 100)
    1000 _ _ _ _ _) _); reflexivity.
Defined.

(** ** A successful conversion, end to end *)

Lemma extract_silent (self : Processor) (w : World) (doc : Document)
    (p : Path) (t : Q) (data : Payload) (tr : list event) :
  _extract_comprehensive_data self w doc p t = (Ret data, tr) → tr = [].
Proof.
  unfold _extract_comprehensive_data, stat_size, getitem. io_unfold.
  io_cases; by intros [= _ <-].
Qed.

(** The run of [process_pdf] once the file is accepted, the engine
    answers [SUCCESS] and the payload is built. *)
Lemma process_pdf_success (self : Processor) (w : World) (p : Path)
    (r : ConversionResult) (data : Payload) (sj sm sh st : pyval) :
  (_validate_input_file self w p).1 = Ret true →
  engine w (converter self) (path_str p) = Ret r →
  String.eqb (status_name (status r)) "SUCCESS" = true →
  _extract_comprehensive_data self w (document r) p (elapsed w)
    = (Ret data, []) →
  output_config self !! "save_json" = Some sj →
  output_config self !! "save_markdown" = Some sm →
  output_config self !! "save_html" = Some sh →
  output_config self !! "save_text" = Some st →
  process_pdf self w p =
    let '(saved, tr) :=
      if any [sj; sm; sh; st]
      then _save_all_outputs self w (document r) p data
      else (Ret (), []) in
    match saved with
    | Ret _ =>
        (Ret (Some data),
         EvLog INFO (MsgStarting (name p)) :: EvConvert (path_str p)
         :: tr ++ [EvLog INFO (MsgProcessedIn (elapsed w))])
    | Raise e =>
        (Ret None,
         EvLog INFO (MsgStarting (name p)) :: EvConvert (path_str p)
         :: tr ++ [EvLog ERROR (MsgProcessingFailed e)])
    end.
Proof.
  intros Hvalid Hengine Hstatus Hdata Hsj Hsm Hsh Hst.
  pose proof (validate_true_silent _ _ _ Hvalid) as Hsilent.
  unfold process_pdf, convert, getitem.
  destruct (_validate_input_file self w p) as [v tr0].
  simpl in Hvalid, Hsilent. subst v tr0.
  rewrite Hengine, Hsj, Hsm, Hsh, Hst. io_unfold.
  generalize (any [sj; sm; sh; st]). intros go. simpl.
  rewrite Hstatus. simpl. rewrite Hdata.
  destruct go; simpl; [|reflexivity].
  by destruct (_save_all_outputs self w (document r) p data) as [[[]|e] tr'].
Qed.

(** The attempts of the writer, for a processor whose output group is
    complete (the statement of the writer's property, for use below). *)
Lemma save_all_outputs_attempts (self : Processor) (w : World)
    (doc : Document) (p : Path) (data : Payload) :
  output_ready self = true →
  writes (_save_all_outputs self w doc p data).2
    = attempts (write_fails w) (List.filter (enabled self) all_formats)
  ∧ ((_save_all_outputs self w doc p data).1 = Ret tt
     ↔ forallb (λ f, negb (write_fails w f))
         (List.filter (enabled self) all_formats) = true).
Proof.
  intros (sj & ji & je & im & sm & sh & st & ss & m &
          Hsj & Hji & Hje & Him & Hsm & Hsh & Hst & Hss & Hm)%output_ready_inv.
  unfold all_formats, enabled, flag_key. simpl List.filter.
  rewrite !lookup_total_alt, Hsj, Hsm, Hsh, Hst, Hss. simpl default.
  unfold _save_all_outputs, _save_summary_report, write_artifact, getitem.
  rewrite Hsj, Hji, Hje, Him, Hsm, Hsh, Hst, Hss. io_unfold.
  destruct (truthy sj); simpl;
    [destruct (write_fails w Json); simpl;
     [by (split; [|split; congruence])|]|];
    rewrite Hm; simpl;
    (destruct (truthy sm); simpl;
     [destruct (write_fails w Markdown); simpl;
      [by (split; [|split; congruence])|]|]);
    (destruct (truthy sh); simpl;
     [destruct (write_fails w Html); simpl;
      [by (split; [|split; congruence])|]|]);
    (destruct (truthy st); simpl;
     [destruct (write_fails w PlainText); simpl;
      [by (split; [|split; congruence])|]|]);
    (destruct (truthy ss); simpl;
     [destruct (write_fails w Summary); simpl|]);
    by (split; [|split; congruence]).
Qed.

(** The outputs of a successful run (used for [process_pdf] and for
    [main]). *)
Lemma process_pdf_outputs_aux (self : Processor) (w : World) (p : Path)
    (r : ConversionResult) (data : Payload) :
  output_ready self = true →
  (_validate_input_file self w p).1 = Ret true →
  engine w (converter self) (path_str p) = Ret r →
  String.eqb (status_name (status r)) "SUCCESS" = true →
  _extract_comprehensive_data self w (document r) p (elapsed w)
    = (Ret data, []) →
  let formats := List.filter (enabled self) all_formats in
  let gate := enabled self Json || enabled self Markdown
              || enabled self Html || enabled self PlainText in
  writes (process_pdf self w p).2
    = (if gate then attempts (write_fails w) formats else [])
  ∧ (process_pdf self w p).1
    = Ret (if gate && negb (forallb (λ f, negb (write_fails w f)) formats)
           then None else Some data).
Proof.
  intros Hready Hvalid Hengine Hstatus Hdata formats gate.
  destruct (save_all_outputs_attempts self w (document r) p data Hready)
    as [Hwrites Hret]. fold formats in Hwrites, Hret.
  destruct (output_ready_inv self Hready)
    as (sj & ji & je & im & sm & sh & st & ss & m &
        Hsj & Hji & Hje & Him & Hsm & Hsh & Hst & Hss & Hm).
  rewrite (process_pdf_success self w p r data sj sm sh st)
    by assumption.
  assert (any [sj; sm; sh; st] = gate) as ->.
  { unfold gate, enabled, flag_key, any.
    rewrite !lookup_total_alt, Hsj, Hsm, Hsh, Hst. simpl.
    by destruct (truthy sj), (truthy sm), (truthy sh), (truthy st). }
  destruct gate; simpl; [|done].
  destruct (_save_all_outputs self w (document r) p data) as [[[]|e] tr].
  - simpl in *. rewrite writes_app. simpl. rewrite app_nil_r.
    split; [done|]. by rewrite (proj1 Hret eq_refl).
  - simpl in *. rewrite writes_app. simpl. rewrite app_nil_r.
    split; [done|].
    destruct (forallb _ formats); [|done].
    discriminate (proj2 Hret eq_refl).
Qed.

(** For a processor whose output group is complete: after a successful
    conversion the files written are those of the enabled formats, in
    the order JSON, Markdown, HTML, text, summary, up to the first
    failure, provided one of the four flags other than [save_summary] is
    set; the payload is returned unless one of these writes fails, in
    which case [None] is returned although the earlier files have been
    written. *)
Theorem process_pdf_outputs (self : Processor) (w : World) (p : Path)
    (r : ConversionResult) (data : Payload) :
  output_ready self = true →
  (_validate_input_file self w p).1 = Ret true →
  engine w (converter self) (path_str p) = Ret r →
  String.eqb (status_name (status r)) "SUCCESS" = true →
  _extract_comprehensive_data self w (document r) p (elapsed w)
    = (Ret data, []) →
  let formats := List.filter (enabled self) all_formats in
  let gate := enabled self Json || enabled self Markdown
              || enabled self Html || enabled self PlainText in
  writes (process_pdf self w p).2
    = (if gate then attempts (write_fails w) formats else [])
  ∧ (process_pdf self w p).1
    = Ret (if gate && negb (forallb (λ f, negb (write_fails w f)) formats)
           then None else Some data).
Proof. apply process_pdf_outputs_aux. Qed.

Lemma process_pdf_outputs_witness :
  writes (process_pdf default_processor (sample_world 1000 SUCCESS [Html])
            sample_path).2
  = [(Json, true); (Markdown, true); (Html, false)]
  ∧ (process_pdf default_processor (sample_world 1000 SUCCESS [Html])
       sample_path).1 = Ret None.
Proof.
  apply (process_pdf_outputs default_processor
    (sample_world 1000 SUCCESS [Html]) sample_path
    (mkResult SUCCESS sample_document) sample_payload); reflexivity.
Defined.

(** ** Where the artifacts go *)

(** The paths of the writer (used for the writer and for [main]). *)
Lemma save_all_outputs_paths (self : Processor) (w : World) (doc : Document)
    (p : Path) (data : Payload) :
  output_ready self = true →
  written_paths (_save_all_outputs self w doc p data).2
  = (λ f, (f, joinpath (output_dir self) (stem p) (artifact_suffix f)))
    <$> (attempts (write_fails w)
           (List.filter (enabled self) all_formats)).*1.
Proof.
  intros (sj & ji & je & im & sm & sh & st & ss & m &
          Hsj & Hji & Hje & Him & Hsm & Hsh & Hst & Hss & Hm)%output_ready_inv.
  unfold all_formats, enabled, flag_key. simpl List.filter.
  rewrite !lookup_total_alt, Hsj, Hsm, Hsh, Hst, Hss. simpl default.
  unfold _save_all_outputs, _save_summary_report, write_artifact, getitem.
  rewrite Hsj, Hji, Hje, Him, Hsm, Hsh, Hst, Hss. io_unfold.
  destruct (truthy sj); simpl;
    [destruct (write_fails w Json); simpl; [done|]|];
    rewrite Hm; simpl;
    (destruct (truthy sm); simpl;
     [destruct (write_fails w Markdown); simpl; [done|]|]);
    (destruct (truthy sh); simpl;
     [destruct (write_fails w Html); simpl; [done|]|]);
    (destruct (truthy st); simpl;
     [destruct (write_fails w PlainText); simpl; [done|]|]);
    (destruct (truthy ss); simpl;
     [destruct (write_fails w Summary); simpl|]);
    done.
Qed.

(** Every file the writer attempts is named after the stem of the input
    file, with the fixed suffix of its format, inside the output
    directory of the processor. *)
Theorem writer_paths (self : Processor) (w : World) (doc : Document)
    (p : Path) (data : Payload) :
  output_ready self = true →
  written_paths (_save_all_outputs self w doc p data).2
  = (λ f, (f, joinpath (output_dir self) (stem p) (artifact_suffix f)))
    <$> (attempts (write_fails w)
           (List.filter (enabled self) all_formats)).*1.
Proof. apply save_all_outputs_paths. Qed.

Lemma writer_paths_witness :
  written_paths (_save_all_outputs summary_only_processor
                   (sample_world 1000 SUCCESS []) sample_document
                   sample_path sample_payload).2
  = [(Summary, "output/doc_report.txt")].
Proof.
  exact (writer_paths summary_only_processor (sample_world 1000 SUCCESS [])
    sample_document sample_path sample_payload eq_refl).
Defined.

(** ** Pictures *)

Lemma image_summaries_length (ps : list Picture) (i : Z) :
  length (image_summaries i ps) = length ps.
Proof.
  revert i. induction ps as [|pic ps IH]; intros i; simpl; [done|].
  by rewrite IH.
Qed.

Lemma image_summaries_lookup (ps : list Picture) (i : Z) (k : nat)
    (pic : Picture) :
  ps !! k = Some pic →
  image_summaries i ps !! k =
    Some (mkImageSummary (i + Z.of_nat k + 1) "picture"
            (has_classification_attr pic)).
Proof.
  revert i k. induction ps as [|pic' ps IH]; intros i k Hk; [done|].
  destruct k as [|k].
  - simpl in *. injection Hk as ->. by rewrite Z.add_0_r.
  - change (image_summaries i (pic' :: ps) !! S k)
      with (image_summaries (i + 1) ps !! k).
    rewrite (IH (i + 1)%Z k Hk).
    by replace (i + 1 + Z.of_nat k + 1)%Z with (i + Z.of_nat (S k) + 1)%Z
      by lia.
Qed.

(** The extraction summary holds one image entry per picture of the
    document, in order, numbered from 1, of type ["picture"], whose
    classification flag tells whether the picture has the attribute; the
    page count is the one of the document. *)
Theorem image_entries_one_per_picture (doc : Document) :
  length (summary_images (_generate_extraction_summary doc))
    = length (pictures doc)
  ∧ pages (_generate_extraction_summary doc) = num_pages doc
  ∧ ∀ (k : nat) (pic : Picture), pictures doc !! k = Some pic →
      summary_images (_generate_extraction_summary doc) !! k
      = Some (mkImageSummary (Z.of_nat k + 1) "picture"
                (has_classification_attr pic)).
Proof.
  simpl. split; [apply image_summaries_length|]. split; [done|].
  intros k pic Hk. by rewrite (image_summaries_lookup _ 0 k pic Hk).
Qed.

(** ** The constructor *)

(** The merge made by the constructor. *)
Lemma init_merge (ov : option (gmap string (gmap string pyval))) :
  match ov with
  | Some o =>
      if bool_decide (o ≠ ∅)
      then (update PROCESSING_CONFIG (get_group o "processing"),
            update OUTPUT_CONFIG (get_group o "output"),
            update FILE_CONFIG (get_group o "file"))
      else (PROCESSING_CONFIG, OUTPUT_CONFIG, FILE_CONFIG)
  | None => (PROCESSING_CONFIG, OUTPUT_CONFIG, FILE_CONFIG)
  end
  = (update PROCESSING_CONFIG (override_group ov "processing"),
     update OUTPUT_CONFIG (override_group ov "output"),
     update FILE_CONFIG (override_group ov "file")).
Proof.
  destruct ov as [o|]; simpl override_group.
  - case_bool_decide as Ho; [done|].
    assert (o = ∅) as -> by (by destruct (decide (o = ∅))).
    unfold get_group. rewrite lookup_empty. simpl.
    by rewrite !update_empty.
  - by rewrite !update_empty.
Qed.

(** The constructor reads the processing, output and file groups of the
    override and nothing else: two overrides that agree on these three
    groups build the same processor with the same events, whatever other
    groups they hold. *)
Theorem init_reads_three_groups (env : Env)
    (ov ov' : option (gmap string (gmap string pyval))) :
  override_group ov "processing" = override_group ov' "processing" →
  override_group ov "output" = override_group ov' "output" →
  override_group ov "file" = override_group ov' "file" →
  __init__ env ov = __init__ env ov'.
Proof.
  intros Hp Ho Hf. unfold __init__.
  destruct (docling_available env); [|done]. cbv beta iota delta [negb].
  by rewrite (init_merge ov), (init_merge ov'), Hp, Ho, Hf.
Qed.

Lemma init_reads_three_groups_witness :
  __init__ sample_env (Some logging_override) = __init__ sample_env None.
Proof.
  apply (init_reads_three_groups sample_env (Some logging_override) None);
    reflexivity.
Defined.

Lemma device_map_get_silent (v : pyval) : (device_map_get v).2 = [].
Proof.
  destruct v as [| | |s|]; try reflexivity.
  by rewrite device_map_get_str.
Qed.

(** What a [_setup_converter] that returns has done: it has logged the
    warning exactly when the accelerator options cannot be imported, and
    when they can, the engine has accepted the number of threads and the
    device. *)
Lemma setup_converter_inv (env : Env) (cfg : gmap string pyval)
    (opts : PdfPipelineOptions) (tr : list event) :
  _setup_converter env cfg = (Ret opts, tr) →
  tr = (if accelerator_available env then []
        else [EvLog WARNING MsgAcceleratorUnavailable])
  ∧ match accelerator_options opts with
    | Some acc =>
        accelerator_available env = true
        ∧ accelerator_options_ok env (acc_num_threads acc) (acc_device acc)
          = true
    | None => accelerator_available env = false
    end.
Proof.
  unfold _setup_converter, getitem. io_unfold.
  match goal with |- _ → ?C => set (concl := C) end.
  destruct (accelerator_available env) eqn:Hacc.
  - destruct (cfg !! "device") as [dev|] eqn:Hdev.
    + pose proof (device_map_get_silent dev) as Hsilent.
      destruct (device_map_get dev) as [[device|e] trd]; simpl in Hsilent;
        subst trd.
      * io_cases; intros [= Ho Ht]; subst concl; subst; simpl; auto.
      * io_cases; discriminate.
    + io_cases; discriminate.
  - io_cases; intros [= Ho Ht]; subst concl; subst; simpl; auto.
Qed.

(** A constructor that returns has found Docling, has opened the log
    file and has created its output directory, which is the path of the
    merged [output_directory]; the directory is created once, before the
    converter is set up; the warning about the accelerator options is
    logged exactly when they cannot be imported, and when they can, the
    engine has accepted the number of threads and the device.  These are
    all the events of the constructor. *)
Theorem init_returns (env : Env)
    (ov : option (gmap string (gmap string pyval))) (self : Processor)
    (tr : list event) :
  __init__ env ov = (Ret self, tr) →
  docling_available env = true
  ∧ log_file_ok env "processing.log" = true
  ∧ (∃ dir,
       update OUTPUT_CONFIG (override_group ov "output") !! "output_directory"
       = Some (PStr dir)
       ∧ output_dir self = path_spelling dir)
  ∧ mkdir_ok env (output_dir self) = true
  ∧ tr = EvMkdir (output_dir self)
         :: (if accelerator_available env then []
             else [EvLog WARNING MsgAcceleratorUnavailable])
         ++ [EvLog INFO MsgInitialized]
  ∧ match accelerator_options (converter self) with
    | Some acc =>
        accelerator_available env = true
        ∧ accelerator_options_ok env (acc_num_threads acc) (acc_device acc)
          = true
    | None => accelerator_available env = false
    end.
Proof.
  unfold __init__. destruct (docling_available env); [|discriminate].
  cbv beta iota delta [negb]. rewrite (init_merge ov).
  rewrite setup_logging_default.
  destruct (log_file_ok env "processing.log"); [|discriminate].
  unfold getitem.
  destruct (update OUTPUT_CONFIG _ !! "output_directory") as [dir|];
    [|discriminate].
  destruct dir as [| | |dir|]; try discriminate. unfold new_path.
  io_unfold. simpl.
  destruct (mkdir_ok env (path_spelling dir)) eqn:Hmk; [|discriminate].
  simpl.
  match goal with
  | |- context [_setup_converter ?e ?c] =>
      pose proof (setup_converter_inv e c) as Hinv;
      destruct (_setup_converter e c) as [[opts|e'] trc]; [|discriminate]
  end.
  destruct (Hinv opts trc eq_refl) as [-> Hacc].
  simpl. intros [= <- <-]. simpl. rewrite Hmk. eauto 10.
Qed.

Lemma init_returns_witness :
  docling_available no_accelerator_env = true
  ∧ log_file_ok no_accelerator_env "processing.log" = true
  ∧ (∃ dir,
       update OUTPUT_CONFIG (get_group plain_override "output")
         !! "output_directory" = Some (PStr dir)
       ∧ "output" = path_spelling dir)
  ∧ mkdir_ok no_accelerator_env "output" = true
  ∧ [EvMkdir "output"; EvLog WARNING MsgAcceleratorUnavailable;
     EvLog INFO MsgInitialized]
    = [EvMkdir "output"; EvLog WARNING MsgAcceleratorUnavailable;
       EvLog INFO MsgInitialized]
  ∧ accelerator_available no_accelerator_env = false.
Proof.
  exact (init_returns no_accelerator_env (Some plain_override)
    (mkProcessor
       (update PROCESSING_CONFIG (get_group plain_override "processing"))
       OUTPUT_CONFIG FILE_CONFIG default_logger "output"
       (mkOptions (PBool true) (PBool false) None (PBool false) (PBool true)
          (PBool true) None (Some (PBool false)) (Some (PBool false)) None))
    [EvMkdir "output"; EvLog WARNING MsgAcceleratorUnavailable;
     EvLog INFO MsgInitialized]
    eq_refl).
Defined.

(** When the directory cannot be created the constructor raises before
    the converter is set up. *)
Theorem init_mkdir_failure (env : Env)
    (ov : option (gmap string (gmap string pyval))) (dir : string) :
  docling_available env = true →
  log_file_ok env "processing.log" = true →
  update OUTPUT_CONFIG (override_group ov "output") !! "output_directory"
    = Some (PStr dir) →
  mkdir_ok env (path_spelling dir) = false →
  __init__ env ov = (Raise OSError, [EvMkdir (path_spelling dir)]).
Proof.
  intros Havail Hlog Hdir Hmk. unfold __init__. rewrite Havail.
  cbv beta iota delta [negb]. rewrite (init_merge ov).
  rewrite setup_logging_default, Hlog. unfold getitem. rewrite Hdir.
  unfold new_path. io_unfold. simpl. by rewrite Hmk.
Qed.

Lemma init_mkdir_failure_witness :
  __init__ (mkEnv true true (λ _, false) (λ _, true) (λ _ _, true)) None
  = (Raise OSError, [EvMkdir "output"]).
Proof.
  apply (init_mkdir_failure
    (mkEnv true true (λ _, false) (λ _, true) (λ _ _, true)) None "output");
    reflexivity.
Defined.

(** ** The minimal variant, beyond the size check *)

(** [process_pdf] of the minimal variant raises only out of its
    existence test, which is made outside the [try] block.  When the test
    returns, whatever its answer, [process_pdf] returns a value: the
    check of the suffix cannot raise and everything after it is inside
    the [try] block.  When [stat] fails with an error that does not mean
    that the file is absent, [process_pdf] raises that error and has
    logged nothing. *)
Theorem minimal_process_pdf_returns (self : Minimal.Processor) (w : World)
    (p : Path) :
  (∀ present, (path_exists w p).1 = Ret present →
     ∃ result, (Minimal.process_pdf self w p).1 = Ret result)
  ∧ (∀ e, (path_exists w p).1 = Raise e →
       Minimal.process_pdf self w p = (Raise e, [])).
Proof.
  unfold Minimal.process_pdf. split.
  - intros present Hpresent. rewrite bind_fst, Hpresent.
    destruct present; cbn [negb]; [|by eexists].
    destruct (negb _); [by eexists|].
    rewrite bind_fst. cbn [log emit fst].
    apply try_except_returns. intros e. by eexists.
  - intros e. unfold path_exists.
    destruct (st_size w !! path_str p); [discriminate|].
    destruct (stat_error w (path_str p)); [|discriminate].
    by intros [= <-].
Qed.

Lemma minimal_process_pdf_returns_witness :
  ∃ result,
    (Minimal.process_pdf minimal_processor (sample_world 1000 SUCCESS [Json])
       sample_path).1 = Ret result.
Proof.
  exact (proj1 (minimal_process_pdf_returns minimal_processor
    (sample_world 1000 SUCCESS [Json]) sample_path) true eq_refl).
Defined.

(** Once the existence test has returned: a missing file, or a file
    whose suffix does not lower-case to [.pdf], gives [None] with one
    error message; the engine is not called and nothing is written.  The
    existence is tested first. *)
Theorem minimal_rejects (self : Minimal.Processor) (w : World) (p : Path)
    (present : bool) :
  (path_exists w p).1 = Ret present →
  present = false ∨ lower (suffix p) ≠ ".pdf" →
  (Minimal.process_pdf self w p).1 = Ret None
  ∧ conversions (Minimal.process_pdf self w p).2 = []
  ∧ writes (Minimal.process_pdf self w p).2 = []
  ∧ errors (Minimal.process_pdf self w p).2
    = [if present then MsgNotPdf (path_str p)
       else MsgFileNotFound (path_str p)].
Proof.
  intros Hpresent Hrej. unfold Minimal.process_pdf.
  assert ((path_exists w p).2 = []) as Hsilent.
  { unfold path_exists. destruct (st_size w !! path_str p); [done|].
    by destruct (stat_error w (path_str p)). }
  destruct (path_exists w p) as [r tr]. simpl in Hpresent, Hsilent.
  subst r tr. rewrite bind_Ret.
  destruct present; cbn [negb]; [|done].
  destruct Hrej as [|Hext]; [done|].
  destruct (String.eqb_spec (lower (suffix p)) ".pdf"); [done|].
  simpl. done.
Qed.

Lemma minimal_rejects_witness :
  (Minimal.process_pdf minimal_processor (sample_world 1000 SUCCESS [])
     bare_path).1 = Ret None
  ∧ conversions (Minimal.process_pdf minimal_processor
                   (sample_world 1000 SUCCESS []) bare_path).2 = []
  ∧ writes (Minimal.process_pdf minimal_processor
              (sample_world 1000 SUCCESS []) bare_path).2 = []
  ∧ errors (Minimal.process_pdf minimal_processor
              (sample_world 1000 SUCCESS []) bare_path).2
    = [MsgFileNotFound "in/README"].
Proof.
  apply (minimal_rejects minimal_processor (sample_world 1000 SUCCESS [])
    bare_path false).
  - reflexivity.
  - left. reflexivity.
Defined.

(** The writer of the minimal variant: the four files JSON, Markdown,
    HTML and summary, in this order, each named after the stem of the
    input inside the output directory, up to the first write that
    fails; a plain-text file is never written. *)
Lemma minimal_save_outputs_attempts (self : Minimal.Processor) (w : World)
    (doc : Document) (p : Path) (data : Minimal.DocumentData) :
  writes (Minimal._save_outputs self w doc p data).2
    = attempts (write_fails w) minimal_formats
  ∧ written_paths (Minimal._save_outputs self w doc p data).2
    = (λ f, (f, joinpath (Minimal.output_dir self) (stem p)
                  (minimal_suffix f)))
      <$> (attempts (write_fails w) minimal_formats).*1
  ∧ ((Minimal._save_outputs self w doc p data).1 = Ret tt
     ↔ forallb (λ f, negb (write_fails w f)) minimal_formats = true).
Proof.
  unfold Minimal._save_outputs, write_artifact, minimal_formats.
  io_unfold. simpl.
  destruct (write_fails w Json); simpl;
    [by (split; [|split; [|split; congruence]])|].
  destruct (write_fails w Markdown); simpl;
    [by (split; [|split; [|split; congruence]])|].
  destruct (write_fails w Html); simpl;
    [by (split; [|split; [|split; congruence]])|].
  destruct (write_fails w Summary); simpl;
    by (split; [|split; [|split; congruence]]).
Qed.

(** The outputs of a successful run of the minimal variant (used for
    [process_pdf] and for [main]). *)
Lemma minimal_outputs_aux (self : Minimal.Processor) (w : World) (p : Path)
    (size : Z) (r : ConversionResult) :
  st_size w !! path_str p = Some size →
  lower (suffix p) = ".pdf" →
  engine w (Minimal.pipeline_options self) (path_str p) = Ret r →
  String.eqb (status_name (status r)) "SUCCESS" = true →
  writes (Minimal.process_pdf self w p).2
    = attempts (write_fails w) minimal_formats
  ∧ written_paths (Minimal.process_pdf self w p).2
    = (λ f, (f, joinpath (Minimal.output_dir self) (stem p)
                  (minimal_suffix f)))
      <$> (attempts (write_fails w) minimal_formats).*1
  ∧ ((∃ data, (Minimal.process_pdf self w p).1 = Ret (Some data))
     ↔ forallb (λ f, negb (write_fails w f)) minimal_formats = true).
Proof.
  intros Hsize Hext Hengine Hstatus.
  unfold Minimal.process_pdf, path_exists, convert.
  rewrite Hsize, Hext, Hengine.
  io_unfold. simpl. rewrite Hstatus. simpl.
  match goal with
  | |- context [Minimal._save_outputs ?s ?w ?d ?p ?dd] =>
      destruct (minimal_save_outputs_attempts s w d p dd)
        as (Hw & Hp & Hr);
      destruct (Minimal._save_outputs s w d p dd) as [[[]|e] tr]
  end; simpl in *.
  - rewrite app_nil_r. split; [done|]. split; [done|].
    split; [intros _; by apply Hr | by eexists].
  - split; [by rewrite <- Hw, writes_app, app_nil_r|].
    split.
    + rewrite <- Hp. clear. induction tr as [|[] tr IH]; simpl; by rewrite ?IH.
    + split; [by intros [data [=]] | intros Hok; by discriminate (proj2 Hr Hok)].
Qed.

(** In the minimal variant, once the file has passed the two checks and
    the engine has answered [SUCCESS], the four files are attempted in
    order whatever the configuration, each at
    [output_dir/stem + suffix], and the document data is returned
    exactly when none of the four writes fails. *)
Theorem minimal_outputs (self : Minimal.Processor) (w : World) (p : Path)
    (size : Z) (r : ConversionResult) :
  st_size w !! path_str p = Some size →
  lower (suffix p) = ".pdf" →
  engine w (Minimal.pipeline_options self) (path_str p) = Ret r →
  String.eqb (status_name (status r)) "SUCCESS" = true →
  writes (Minimal.process_pdf self w p).2
    = attempts (write_fails w) minimal_formats
  ∧ written_paths (Minimal.process_pdf self w p).2
    = (λ f, (f, joinpath (Minimal.output_dir self) (stem p)
                  (minimal_suffix f)))
      <$> (attempts (write_fails w) minimal_formats).*1
  ∧ ((∃ data, (Minimal.process_pdf self w p).1 = Ret (Some data))
     ↔ forallb (λ f, negb (write_fails w f)) minimal_formats = true).
Proof. apply minimal_outputs_aux. Qed.

Lemma minimal_outputs_witness :
  writes (Minimal.process_pdf minimal_processor
            (sample_world 1000 SUCCESS [Html]) sample_path).2
  = [(Json, true); (Markdown, true); (Html, false)].
Proof.
  exact (proj1 (minimal_outputs minimal_processor
    (sample_world 1000 SUCCESS [Html]) sample_path 1000
    (mkResult SUCCESS sample_document) eq_refl eq_refl eq_refl eq_refl)).
Defined.

(** In the minimal variant a status other than [SUCCESS], or an
    exception of the engine, gives [None] and no file. *)
Theorem minimal_engine_failure (self : Minimal.Processor) (w : World)
    (p : Path) (size : Z) :
  st_size w !! path_str p = Some size →
  lower (suffix p) = ".pdf" →
  match engine w (Minimal.pipeline_options self) (path_str p) with
  | Ret r => String.eqb (status_name (status r)) "SUCCESS" = false
  | Raise _ => True
  end →
  (Minimal.process_pdf self w p).1 = Ret None
  ∧ writes (Minimal.process_pdf self w p).2 = [].
Proof.
  intros Hsize Hext Hfail.
  unfold Minimal.process_pdf, path_exists, convert. rewrite Hsize, Hext.
  io_unfold. simpl.
  destruct (engine w (Minimal.pipeline_options self) (path_str p)) as [r|e];
    simpl; [|done].
  by rewrite Hfail.
Qed.

Lemma minimal_engine_failure_witness :
  (Minimal.process_pdf minimal_processor raising_world sample_path).1
    = Ret None
  ∧ writes (Minimal.process_pdf minimal_processor raising_world
              sample_path).2 = [].
Proof.
  apply (minimal_engine_failure minimal_processor raising_world sample_path
    1000); [reflexivity | reflexivity | exact I].
Defined.

(** ** The command line of the configurable variant *)

Lemma cli_groups (argv : list string) :
  get_group (cli_override argv) "output" = ∅
  ∧ get_group (cli_override argv) "file" = ∅.
Proof.
  unfold cli_override, get_group. split.
  - rewrite lookup_insert_ne by done. by rewrite lookup_insert_eq.
  - rewrite !lookup_insert_ne by done. by rewrite lookup_empty.
Qed.

Lemma cli_processing (argv : list string) :
  get_group (cli_override argv) "processing"
  = update
      (if bool_decide ("--no-tables" ∈ argv)
       then <["enable_tables" := PBool false]>
              (if bool_decide ("--no-ocr" ∈ argv)
               then <["enable_ocr" := PBool false]> ∅ else ∅)
       else if bool_decide ("--no-ocr" ∈ argv)
            then <["enable_ocr" := PBool false]> ∅ else ∅)
      (if bool_decide ("--simple" ∈ argv)
       then list_to_map [("enable_picture_classification", PBool false);
                         ("enable_code_enrichment", PBool false);
                         ("enable_formula_enrichment", PBool false);
                         ("generate_picture_images", PBool false)]
       else ∅).
Proof.
  unfold cli_override, get_group. rewrite lookup_insert_eq. simpl.
  destruct (bool_decide ("--simple" ∈ argv)); [done|].
  by rewrite update_empty.
Qed.

(** The options of the command line reach the processor as follows:
    [--no-ocr] and [--no-tables] switch off their option, [--simple]
    switches off the four options of the cheaper profile, each of them
    independently of the other two; every other option of the
    processing group, and the whole output and file groups, keep the
    defaults of [config.py]. *)
Theorem cli_options_effect (env : Env) (argv : list string)
    (self : Processor) (tr : list event) :
  __init__ env (Some (cli_override argv)) = (Ret self, tr) →
  output_config self = OUTPUT_CONFIG
  ∧ file_config self = FILE_CONFIG
  ∧ processing_config self !! "enable_ocr"
    = Some (PBool (negb (bool_decide ("--no-ocr" ∈ argv))))
  ∧ processing_config self !! "enable_tables"
    = Some (PBool (negb (bool_decide ("--no-tables" ∈ argv))))
  ∧ (∀ k, k ∈ ["enable_picture_classification"; "enable_code_enrichment";
               "enable_formula_enrichment"; "generate_picture_images"] →
       processing_config self !! k
       = if bool_decide ("--simple" ∈ argv) then Some (PBool false)
         else PROCESSING_CONFIG !! k)
  ∧ (∀ k, k ∉ ["enable_ocr"; "enable_tables";
               "enable_picture_classification"; "enable_code_enrichment";
               "enable_formula_enrichment"; "generate_picture_images"] →
       processing_config self !! k = PROCESSING_CONFIG !! k).
Proof.
  intros (Hp & Ho & Hf & _)%init_configs. simpl override_group in *.
  destruct (cli_groups argv) as [Hout Hfile].
  rewrite Hout, update_empty in Ho. rewrite Hfile, update_empty in Hf.
  rewrite cli_processing in Hp. rewrite Hp. clear Hp.
  split; [done|]. split; [done|].
  destruct (bool_decide ("--no-ocr" ∈ argv)),
    (bool_decide ("--no-tables" ∈ argv)),
    (bool_decide ("--simple" ∈ argv));
    (split; [reflexivity|]); (split; [reflexivity|]);
    (split;
     [intros k Hk;
      repeat (apply elem_of_cons in Hk as [->|Hk]; [reflexivity|]);
      by apply elem_of_nil in Hk
     |intros k Hk;
      repeat (apply not_elem_of_cons in Hk as [? Hk]);
      rewrite !update_lookup; simpl list_to_map;
      by rewrite ?lookup_insert_ne, ?lookup_empty by done]).
Qed.

Lemma cli_options_witness :
  processing_config
    (mkProcessor
       (update PROCESSING_CONFIG
          (get_group (cli_override ["prog"; "doc.pdf"; "--simple"; "--no-ocr"])
             "processing"))
       OUTPUT_CONFIG FILE_CONFIG default_logger "output"
       (mkOptions (PBool false) (PBool true) (Some (PBool true)) (PBool true)
          (PBool false) (PBool false) (Some (PInt 2)) (Some (PBool false))
          (Some (PBool false)) (Some (mkAccelerator (PInt 4) AUTO))))
    !! "enable_ocr" = Some (PBool false).
Proof.
  refine (proj1 (proj2 (proj2 (cli_options_effect sample_env
    ["prog"; "doc.pdf"; "--simple"; "--no-ocr"] _
    [EvMkdir "output"; EvLog INFO MsgInitialized] _)))).
  reflexivity.
Defined.

(** [_setup_converter] creates no directory, calls no engine and writes
    no file. *)
Lemma setup_converter_quiet (env : Env) (cfg : gmap string pyval) :
  mkdirs (_setup_converter env cfg).2 = []
  ∧ conversions (_setup_converter env cfg).2 = []
  ∧ written_paths (_setup_converter env cfg).2 = [].
Proof.
  unfold _setup_converter, getitem, device_map_get. io_unfold.
  io_cases; auto.
Qed.

(** What a constructor that returns has done. *)
Lemma init_inv (env : Env)
    (ov : option (gmap string (gmap string pyval))) (self : Processor)
    (tr : list event) :
  __init__ env ov = (Ret self, tr) →
  (∃ dir,
     update OUTPUT_CONFIG (override_group ov "output") !! "output_directory"
     = Some (PStr dir)
     ∧ output_dir self = path_spelling dir)
  ∧ mkdirs tr = [output_dir self]
  ∧ conversions tr = []
  ∧ written_paths tr = [].
Proof.
  unfold __init__. destruct (docling_available env); [|discriminate].
  cbv beta iota delta [negb]. rewrite (init_merge ov).
  rewrite setup_logging_default.
  destruct (log_file_ok env "processing.log"); [|discriminate].
  unfold getitem.
  destruct (update OUTPUT_CONFIG _ !! "output_directory") as [dir|];
    [|discriminate].
  destruct dir as [| | |dir|]; try discriminate. unfold new_path.
  io_unfold. simpl.
  destruct (mkdir_ok env (path_spelling dir)); [|discriminate]. simpl.
  match goal with
  | |- context [_setup_converter ?e ?c] =>
      destruct (setup_converter_quiet e c) as (Hm & Hc & Hw);
      destruct (_setup_converter e c) as [[opts|e'] trc]; [|discriminate]
  end.
  simpl in *. intros [= <- <-]. simpl.
  assert (∀ l, mkdirs (l ++ [EvLog INFO MsgInitialized]) = mkdirs l) as Hm'.
  { intros l. induction l as [|[] l IH]; simpl; by rewrite ?IH. }
  assert (∀ l, written_paths (l ++ [EvLog INFO MsgInitialized])
               = written_paths l) as Hw'.
  { intros l. induction l as [|[] l IH]; simpl; by rewrite ?IH. }
  rewrite Hm', Hw', conversions_app, Hm, Hc, Hw.
  split; [by exists dir|done].
Qed.

(** What a [process_pdf] that returns a payload has gone through. *)
Lemma process_pdf_payload_inv (self : Processor) (w : World) (p : Path)
    (data : Payload) (tr : list event) :
  process_pdf self w p = (Ret (Some data), tr) →
  (_validate_input_file self w p).1 = Ret true
  ∧ ∃ r, engine w (converter self) (path_str p) = Ret r
    ∧ String.eqb (status_name (status r)) "SUCCESS" = true
    ∧ _extract_comprehensive_data self w (document r) p (elapsed w)
      = (Ret data, []).
Proof.
  unfold process_pdf, convert.
  destruct (_validate_input_file self w p) as [[[]|e] trv]; io_unfold;
    simpl; try discriminate.
  destruct (engine w (converter self) (path_str p)) as [r|e]; simpl;
    [|discriminate].
  destruct (String.eqb (status_name (status r)) "SUCCESS") eqn:Hstatus; simpl;
    [|discriminate].
  destruct (_extract_comprehensive_data self w (document r) p (elapsed w))
    as [[d|e] tre] eqn:Hdata; simpl; [|discriminate].
  pose proof (extract_silent _ _ _ _ _ _ _ Hdata) as ->.
  unfold getitem.
  destruct (output_config self !! "save_json"); simpl; [|discriminate].
  destruct (output_config self !! "save_markdown"); simpl; [|discriminate].
  destruct (output_config self !! "save_html"); simpl; [|discriminate].
  destruct (output_config self !! "save_text"); simpl; [|discriminate].
  match goal with
  | |- context [if ?b then ?x else ?y] =>
      destruct (if b then x else y) as [[[]|e] trs]
  end; simpl; [|discriminate].
  intros [= <- _]. split; [done|]. by exists r.
Qed.

Lemma save_all_outputs_no_engine (self : Processor) (w : World)
    (doc : Document) (p : Path) (data : Payload) :
  output_ready self = true →
  conversions (_save_all_outputs self w doc p data).2 = []
  ∧ mkdirs (_save_all_outputs self w doc p data).2 = [].
Proof.
  intros (sj & ji & je & im & sm & sh & st & ss & m &
          Hsj & Hji & Hje & Him & Hsm & Hsh & Hst & Hss & Hm)%output_ready_inv.
  unfold _save_all_outputs, _save_summary_report, write_artifact, getitem.
  rewrite Hsj, Hji, Hje, Him, Hsm, Hsh, Hst, Hss. io_unfold.
  destruct (truthy sj); simpl;
    [destruct (write_fails w Json); simpl; [done|]|];
    rewrite Hm; simpl;
    (destruct (truthy sm); simpl;
     [destruct (write_fails w Markdown); simpl; [done|]|]);
    (destruct (truthy sh); simpl;
     [destruct (write_fails w Html); simpl; [done|]|]);
    (destruct (truthy st); simpl;
     [destruct (write_fails w PlainText); simpl; [done|]|]);
    (destruct (truthy ss); simpl;
     [destruct (write_fails w Summary); simpl|]);
    done.
Qed.

Lemma written_paths_app (t1 t2 : list event) :
  written_paths (t1 ++ t2) = written_paths t1 ++ written_paths t2.
Proof.
  induction t1 as [|ev t1 IH]; [done|].
  destruct ev; simpl; by rewrite ?IH.
Qed.

Lemma mkdirs_app (t1 t2 : list event) :
  mkdirs (t1 ++ t2) = mkdirs t1 ++ mkdirs t2.
Proof.
  induction t1 as [|ev t1 IH]; [done|].
  destruct ev; simpl; by rewrite ?IH.
Qed.

(** [main] of the configurable variant ends with status 0 only after a
    complete run: it was given a path, the output directory [output] was
    created, the engine was called once on that path, and the five
    files [stem.json], [stem.md], [stem.html], [stem.txt] and
    [stem_report.txt] were all written into [output], in this order. *)
Theorem main_success_writes_five_files (Path_ : string → Path) (env : Env)
    (w : World) (argv : list string) :
  exit_code (main Path_ env w argv) = 0%Z →
  ∃ prog pdf_path rest,
    argv = prog :: pdf_path :: rest
    ∧ mkdirs (trace (main Path_ env w argv)) = ["output"]
    ∧ conversions (trace (main Path_ env w argv))
      = [path_str (Path_ pdf_path)]
    ∧ written_paths (trace (main Path_ env w argv))
      = (λ f, (f, joinpath "output" (stem (Path_ pdf_path))
                    (artifact_suffix f))) <$> all_formats
    ∧ writes (trace (main Path_ env w argv))
      = (λ f, (f, true)) <$> all_formats.
Proof.
  unfold main.
  destruct argv as [|prog [|pdf_path rest]]; [discriminate..|].
  destruct (is_placeholder Path_ w pdf_path).1 as [[]|e0]; try discriminate.
  destruct (__init__ env (Some (cli_override (prog :: pdf_path :: rest))))
    as [[self|e] tr] eqn:Hinit; [|discriminate].
  destruct (process_pdf self w (Path_ pdf_path)) as [[[data|]|e] tr']
    eqn:Hproc; try discriminate.
  intros _. exists prog, pdf_path, rest. split; [done|]. simpl trace.
  destruct (init_configs _ _ _ _ Hinit) as (_ & Hoc & _ & _).
  destruct (init_inv _ _ _ _ Hinit) as (Hdir & Hmk & Hconv & Hwr).
  simpl override_group in *.
  rewrite (proj1 (cli_groups _)), update_empty in Hoc, Hdir.
  destruct Hdir as (dir & Hdir & Hout). injection Hdir as <-.
  change (path_spelling "output") with "output" in Hout.
  destruct (process_pdf_payload_inv _ _ _ _ _ Hproc)
    as (Hvalid & r & Hengine & Hstatus & Hdata).
  assert (output_ready self = true) as Hready
    by (unfold output_ready; by rewrite Hoc).
  assert (List.filter (enabled self) all_formats = all_formats) as Hall
    by (unfold enabled; by rewrite Hoc).
  pose proof (process_pdf_success self w (Path_ pdf_path) r data
                (PBool true) (PBool true) (PBool true) (PBool true)
                Hvalid Hengine Hstatus Hdata) as Hrun.
  rewrite Hoc, Hproc in Hrun.
  specialize (Hrun eq_refl eq_refl eq_refl eq_refl). simpl any in Hrun.
  destruct (save_all_outputs_attempts self w (document r) (Path_ pdf_path)
              data Hready) as [Hwrites Hret].
  destruct (save_all_outputs_no_engine self w (document r) (Path_ pdf_path)
              data Hready) as [Hnoconv Hnomk].
  pose proof (save_all_outputs_paths self w (document r) (Path_ pdf_path)
                data Hready) as Hpaths.
  rewrite Hall, ?Hout in Hwrites, Hret, Hpaths.
  destruct (_save_all_outputs self w (document r) (Path_ pdf_path) data)
    as [[[]|e] trs]; [|discriminate Hrun].
  injection Hrun as ->. cbn [fst snd] in Hwrites, Hret, Hpaths, Hnoconv, Hnomk.
  assert (attempts (write_fails w) all_formats
          = (λ f, (f, true)) <$> all_formats) as Hok.
  { pose proof (proj1 Hret eq_refl) as Hres. revert Hres.
    unfold all_formats. simpl.
    by destruct (write_fails w Json), (write_fails w Markdown),
      (write_fails w Html), (write_fails w PlainText),
      (write_fails w Summary). }
  rewrite Hok in Hwrites, Hpaths.
  assert (writes tr = []) as Hnowr.
  { clear -Hwr. induction tr as [|[] tr IH]; simpl in *; try done; auto. }
  rewrite mkdirs_app, conversions_app, written_paths_app, writes_app.
  simpl. rewrite mkdirs_app, conversions_app, written_paths_app, writes_app.
  rewrite Hmk, Hconv, Hwr, Hnowr, Hnoconv, Hnomk, Hpaths, Hwrites, Hout.
  simpl. by rewrite ?app_nil_r.
Qed.

(** Without Docling, [main] ends with status 1 whatever its arguments
    and touches nothing: no directory is created, no engine is called,
    no file is written. *)
Theorem main_without_docling (Path_ : string → Path) (env : Env)
    (w : World) (argv : list string) :
  docling_available env = false →
  exit_code (main Path_ env w argv) = 1%Z
  ∧ trace (main Path_ env w argv) = [].
Proof.
  intros Hmissing. unfold main.
  destruct argv as [|prog [|pdf_path rest]]; [done..|].
  destruct (is_placeholder Path_ w pdf_path).1 as [[]|e0]; [done| |done].
  unfold __init__. by rewrite Hmissing.
Qed.

Lemma main_without_docling_witness :
  exit_code (main sample_Path no_docling_env
               (sample_world 1000 SUCCESS []) ["prog"; "in/doc.PDF"]) = 1%Z
  ∧ trace (main sample_Path no_docling_env
             (sample_world 1000 SUCCESS []) ["prog"; "in/doc.PDF"]) = [].
Proof.
  apply (main_without_docling sample_Path no_docling_env
    (sample_world 1000 SUCCESS []) ["prog"; "in/doc.PDF"]).
  reflexivity.
Defined.

Lemma main_success_witness :
  ∃ prog pdf_path rest,
    ["prog"; "in/doc.PDF"; "--simple"] = prog :: pdf_path :: rest
    ∧ mkdirs (trace (main sample_Path sample_env
                       (sample_world 1000 SUCCESS [])
                       ["prog"; "in/doc.PDF"; "--simple"])) = ["output"]
    ∧ conversions (trace (main sample_Path sample_env
                            (sample_world 1000 SUCCESS [])
                            ["prog"; "in/doc.PDF"; "--simple"]))
      = [path_str (sample_Path pdf_path)]
    ∧ written_paths (trace (main sample_Path sample_env
                              (sample_world 1000 SUCCESS [])
                              ["prog"; "in/doc.PDF"; "--simple"]))
      = (λ f, (f, joinpath "output" (stem (sample_Path pdf_path))
                    (artifact_suffix f))) <$> all_formats
    ∧ writes (trace (main sample_Path sample_env
                       (sample_world 1000 SUCCESS [])
                       ["prog"; "in/doc.PDF"; "--simple"]))
      = (λ f, (f, true)) <$> all_formats.
Proof.
  apply (main_success_writes_five_files sample_Path sample_env
    (sample_world 1000 SUCCESS []) ["prog"; "in/doc.PDF"; "--simple"]).
  reflexivity.
Defined.

(** ** The pipeline configuration without the accelerator options *)



(** ** The command line of the minimal variant *)

Lemma minimal_save_outputs_quiet (self : Minimal.Processor) (w : World)
    (doc : Document) (p : Path) (data : Minimal.DocumentData) :
  mkdirs (Minimal._save_outputs self w doc p data).2 = [].
Proof.
  unfold Minimal._save_outputs, write_artifact. io_unfold.
  destruct (write_fails w Json); simpl; [done|].
  destruct (write_fails w Markdown); simpl; [done|].
  destruct (write_fails w Html); simpl; [done|].
  destruct (write_fails w Summary); simpl; done.
Qed.

(** What a [process_pdf] of the minimal variant that returns the
    document data has gone through, and the rest of its trace. *)
Lemma minimal_payload_inv (self : Minimal.Processor) (w : World) (p : Path)
    (data : Minimal.DocumentData) (tr : list event) :
  Minimal.process_pdf self w p = (Ret (Some data), tr) →
  (∃ size r,
     st_size w !! path_str p = Some size
     ∧ lower (suffix p) = ".pdf"
     ∧ engine w (Minimal.pipeline_options self) (path_str p) = Ret r
     ∧ String.eqb (status_name (status r)) "SUCCESS" = true)
  ∧ mkdirs tr = []
  ∧ conversions tr = [path_str p].
Proof.
  unfold Minimal.process_pdf, path_exists, convert.
  destruct (st_size w !! path_str p) as [size|];
    [|by destruct (stat_error w (path_str p))].
  cbv beta iota delta [mbind IO_bind mret IO_ret negb].
  destruct (String.eqb_spec (lower (suffix p)) ".pdf") as [Hext|];
    [|discriminate].
  io_unfold. simpl.
  destruct (engine w (Minimal.pipeline_options self) (path_str p))
    as [r|e] eqn:Hengine; simpl; [|discriminate].
  destruct (String.eqb (status_name (status r)) "SUCCESS") eqn:Hstatus;
    simpl; [|discriminate].
  match goal with
  | |- context [Minimal._save_outputs ?s ?w ?d ?p ?dd] =>
      pose proof (minimal_save_outputs_quiet s w d p dd) as Hquiet;
      pose proof (minimal_save_outputs_no_engine s w d p dd) as Hnoconv;
      destruct (Minimal._save_outputs s w d p dd) as [[[]|e] trs]
  end; simpl in *; [|discriminate].
  intros [= _ <-]. rewrite app_nil_r. simpl. rewrite Hquiet, Hnoconv.
  split; [|done]. by exists size, r.
Qed.

(** [main] of the minimal variant ends with status 0 only when it was
    given exactly one argument, the directory [output] was created, the
    engine was called once on that path, and the four files
    [stem.json], [stem.md], [stem.html] and [stem_summary.txt] were all
    written into [output], in this order. *)
Theorem minimal_main_success_writes_four_files (Path_ : string → Path)
    (env : Env) (w : World) (argv : list string) :
  exit_code (MinimalCli.main Path_ env w argv) = 0%Z →
  ∃ prog pdf_path,
    argv = [prog; pdf_path]
    ∧ mkdirs (trace (MinimalCli.main Path_ env w argv)) = ["output"]
    ∧ conversions (trace (MinimalCli.main Path_ env w argv))
      = [path_str (Path_ pdf_path)]
    ∧ written_paths (trace (MinimalCli.main Path_ env w argv))
      = (λ f, (f, joinpath "output" (stem (Path_ pdf_path))
                    (minimal_suffix f))) <$> minimal_formats
    ∧ writes (trace (MinimalCli.main Path_ env w argv))
      = (λ f, (f, true)) <$> minimal_formats.
Proof.
  unfold MinimalCli.main.
  destruct argv as [|prog [|pdf_path [|extra rest]]]; try discriminate.
  destruct (is_placeholder Path_ w pdf_path).1 as [[]|e0]; try discriminate.
  unfold Minimal.__init__. io_unfold. simpl.
  destruct (mkdir_ok env "output"); simpl; [|discriminate].
  match goal with
  | |- context [Minimal.process_pdf ?s w (Path_ pdf_path)] =>
      set (self := s)
  end.
  destruct (Minimal.process_pdf self w (Path_ pdf_path))
    as [[[data|]|e] tr] eqn:Hproc; try discriminate.
  intros _. exists prog, pdf_path. split; [done|]. simpl trace.
  destruct (minimal_payload_inv _ _ _ _ _ Hproc)
    as ((size & r & Hsize & Hext & Hengine & Hstatus) & Hmk & Hconv).
  destruct (minimal_outputs_aux self w (Path_ pdf_path) size r
              Hsize Hext Hengine Hstatus) as (Hwrites & Hpaths & Hret).
  rewrite Hproc in Hwrites, Hpaths, Hret. cbn [fst snd] in *.
  assert (attempts (write_fails w) minimal_formats
          = (λ f, (f, true)) <$> minimal_formats) as Hok.
  { assert (forallb (λ f, negb (write_fails w f)) minimal_formats = true)
      as Hres by (apply Hret; by exists data).
    revert Hres. unfold minimal_formats. simpl.
    by destruct (write_fails w Json), (write_fails w Markdown),
      (write_fails w Html), (write_fails w Summary). }
  rewrite Hok in Hwrites, Hpaths. simpl.
  by rewrite Hmk, Hconv, Hpaths, Hwrites.
Qed.

Lemma minimal_main_success_witness :
  ∃ prog pdf_path,
    ["prog"; "in/doc.PDF"] = [prog; pdf_path]
    ∧ mkdirs (trace (MinimalCli.main sample_Path sample_env
                       (sample_world 1000 SUCCESS [])
                       ["prog"; "in/doc.PDF"])) = ["output"]
    ∧ conversions (trace (MinimalCli.main sample_Path sample_env
                            (sample_world 1000 SUCCESS [])
                            ["prog"; "in/doc.PDF"]))
      = [path_str (sample_Path pdf_path)]
    ∧ written_paths (trace (MinimalCli.main sample_Path sample_env
                              (sample_world 1000 SUCCESS [])
                              ["prog"; "in/doc.PDF"]))
      = (λ f, (f, joinpath "output" (stem (sample_Path pdf_path))
                    (minimal_suffix f))) <$> minimal_formats
    ∧ writes (trace (MinimalCli.main sample_Path sample_env
                       (sample_world 1000 SUCCESS [])
                       ["prog"; "in/doc.PDF"]))
      = (λ f, (f, true)) <$> minimal_formats.
Proof.
  apply (minimal_main_success_writes_four_files sample_Path sample_env
    (sample_world 1000 SUCCESS []) ["prog"; "in/doc.PDF"]).
  reflexivity.
Defined.
